(** * Shallow embedding of [src/server.py] (Airflow MCP server)

    The module-level configuration, the [httpx] transport and the upstream
    Airflow REST API are the inputs of the model: they are the [Variable]s of
    section [Server].  Every other function of the source ([make_api_request],
    [list_tools], [call_tool]) is translated below, branch by branch. *)

From Stdlib Require Import String Ascii List ZArith Bool Lia.
Import ListNotations.
Set Warnings "-register-all".
Open Scope list_scope.
Open Scope string_scope.

(** ** JSON values, as [json.loads] / the MCP runtime hand them to Python.
    Numbers are integers (floating point values are not modelled); objects
    are association lists in insertion order, with distinct keys as in a
    Python [dict]. *)
Inductive json : Type :=
| JNull
| JBool (b : bool)
| JInt (z : Z)
| JStr (s : string)
| JList (l : list json)
| JObj (kvs : list (string * json)).

(** ** Python exceptions: the class and [str(e)]. *)
Inductive exc_kind : Type :=
| KeyError | AttributeError | TypeError | ValueError | PyException.

Record exc : Type := mkExc { ex_kind : exc_kind; ex_msg : string }.

(** ** String helpers *)

Definition newline : string := String (ascii_of_nat 10) EmptyString.

Fixpoint str_join (sep : string) (xs : list string) : string :=
  match xs with
  | [] => ""
  | [x] => x
  | x :: rest => x ++ sep ++ str_join sep rest
  end.

Fixpoint is_prefix (p s : string) : bool :=
  match p, s with
  | EmptyString, _ => true
  | String a p', String b s' => Ascii.eqb a b && is_prefix p' s'
  | _, _ => false
  end.

(** [needle in hay] *)
Fixpoint contains (needle hay : string) : bool :=
  match hay with
  | EmptyString => is_prefix needle hay
  | String _ hay' => is_prefix needle hay || contains needle hay'
  end.

(** [str(int)]: decimal digits. *)
Fixpoint pos_digits (fuel : nat) (p : positive) (acc : string) : string :=
  match fuel with
  | O => acc
  | S fuel' =>
      let q := Z.div (Z.pos p) 10 in
      let r := Z.modulo (Z.pos p) 10 in
      let acc' := String (ascii_of_nat (48 + Z.to_nat r)) acc in
      match q with
      | Z.pos q' => pos_digits fuel' q' acc'
      | _ => acc'
      end
  end.

Definition z_to_dec (z : Z) : string :=
  match z with
  | Z0 => "0"
  | Z.pos p => pos_digits (Pos.size_nat p) p ""
  | Z.neg p => "-" ++ pos_digits (Pos.size_nat p) p ""
  end.

(** [repr(s)] for a [str]: single quotes unless the text holds a single
    quote and no double quote; backslash, the chosen quote, tab, newline,
    carriage return and the other ASCII control characters are escaped.
    The bytes of non-ASCII characters are kept as they are: Python also
    escapes the non-ASCII characters its Unicode tables call non-printable
    (U+00A0, U+00AD, U+200B, ...), which this model does not, so [repr] of a
    text holding one of them differs from Python's. *)
Definition hex_digit (n : nat) : ascii :=
  if Nat.ltb n 10 then ascii_of_nat (48 + n) else ascii_of_nat (87 + n).

Definition escape_char (q : ascii) (c : ascii) : string :=
  let n := nat_of_ascii c in
  if Ascii.eqb c "\"%char then "\\"
  else if Ascii.eqb c q then String "\"%char (String q EmptyString)
  else if Nat.eqb n 9 then "\t"
  else if Nat.eqb n 10 then "\n"
  else if Nat.eqb n 13 then "\r"
  else if Nat.ltb n 32 || Nat.eqb n 127 then
    String "\"%char (String "x"%char
      (String (hex_digit (Nat.div n 16)) (String (hex_digit (Nat.modulo n 16)) EmptyString)))
  else String c EmptyString.

Fixpoint has_char (c : ascii) (s : string) : bool :=
  match s with
  | EmptyString => false
  | String a s' => Ascii.eqb a c || has_char c s'
  end.

Fixpoint escape_with (q : ascii) (s : string) : string :=
  match s with
  | EmptyString => ""
  | String c s' => escape_char q c ++ escape_with q s'
  end.

Definition squote : ascii := ascii_of_nat 39.
Definition dquote : ascii := ascii_of_nat 34.

Definition repr_str (s : string) : string :=
  let q := if has_char squote s && negb (has_char dquote s) then dquote else squote in
  String q (escape_with q s ++ String q EmptyString).

(** [repr(v)] and [str(v)] of a JSON value. *)
Fixpoint py_repr (v : json) : string :=
  match v with
  | JNull => "None"
  | JBool true => "True"
  | JBool false => "False"
  | JInt z => z_to_dec z
  | JStr s => repr_str s
  | JList l =>
      let fix items (l : list json) : list string :=
        match l with [] => [] | x :: r => py_repr x :: items r end in
      "[" ++ str_join ", " (items l) ++ "]"
  | JObj kvs =>
      let fix entries (kvs : list (string * json)) : list string :=
        match kvs with
        | [] => []
        | (k, x) :: r => (repr_str k ++ ": " ++ py_repr x) :: entries r
        end in
      "{" ++ str_join ", " (entries kvs) ++ "}"
  end.

Definition py_str (v : json) : string :=
  match v with
  | JStr s => s
  | _ => py_repr v
  end.

Example repr_ex : py_str (JObj [("a", JList [JInt 12; JNull; JStr "a\b"]); ("b", JBool true)])
  = "{'a': [12, None, 'a\\b'], 'b': True}". Proof. reflexivity. Qed.

(** ** Python built-ins on JSON values *)

Definition type_name (v : json) : string :=
  match v with
  | JNull => "NoneType" | JBool _ => "bool" | JInt _ => "int"
  | JStr _ => "str" | JList _ => "list" | JObj _ => "dict"
  end.

(** [bool(v)] *)
Definition py_truthy (v : json) : bool :=
  match v with
  | JNull => false
  | JBool b => b
  | JInt z => negb (Z.eqb z 0)
  | JStr s => negb (String.eqb s "")
  | JList l => negb (Nat.eqb (length l) 0)
  | JObj kvs => negb (Nat.eqb (length kvs) 0)
  end.

Fixpoint assoc (k : string) (kvs : list (string * json)) : option json :=
  match kvs with
  | [] => None
  | (k', v) :: r => if String.eqb k k' then Some v else assoc k r
  end.

(** Results of a Python computation that may raise. *)
Inductive res (A : Type) : Type :=
| Ok (a : A)
| Err (e : exc).
Arguments Ok {A} a.
Arguments Err {A} e.

Definition attr_error (v : json) (attr : string) : exc :=
  mkExc AttributeError (repr_str (type_name v) ++ " object has no attribute " ++ repr_str attr).

(** [v.get(k, d)] *)
Definition py_get (v : json) (k : string) (d : json) : res json :=
  match v with
  | JObj kvs => match assoc k kvs with Some x => Ok x | None => Ok d end
  | _ => Err (attr_error v "get")
  end.

(** [v[k]] with a [str] key *)
Definition py_index (v : json) (k : string) : res json :=
  match v with
  | JObj kvs =>
      match assoc k kvs with
      | Some x => Ok x
      | None => Err (mkExc KeyError (repr_str k))
      end
  | JList _ => Err (mkExc TypeError "list indices must be integers or slices, not str")
  | JStr _ => Err (mkExc TypeError "string indices must be integers, not 'str'")
  | _ => Err (mkExc TypeError (repr_str (type_name v) ++ " object is not subscriptable"))
  end.

(** [str.lower()] as far as the lookups in the state tables see it: the
    ASCII letters are lowered, and so is the KELVIN SIGN U+212A (UTF-8
    [E2 84 AA]), the one non-ASCII character whose lower case is ASCII
    ([k]); other non-ASCII characters are kept. Python lowers some of them
    to other non-ASCII text ([U+0130] to [i] and [U+0307]), which, like the
    kept character, matches none of the ASCII keys of the tables. *)
Definition lower_char (c : ascii) : ascii :=
  let n := nat_of_ascii c in
  if Nat.leb 65 n && Nat.leb n 90 then ascii_of_nat (n + 32) else c.

Definition is_kelvin (c1 c2 c3 : ascii) : bool :=
  Nat.eqb (nat_of_ascii c1) 226 && Nat.eqb (nat_of_ascii c2) 132 && Nat.eqb (nat_of_ascii c3) 170.

Fixpoint lower_string (s : string) : string :=
  match s with
  | EmptyString => EmptyString
  | String c s' =>
      match s' with
      | String c2 (String c3 s'') =>
          if is_kelvin c c2 c3 then String "k"%char (lower_string s'')
          else String (lower_char c) (lower_string s')
      | _ => String (lower_char c) (lower_string s')
      end
  end.

Definition py_lower (v : json) : res string :=
  match v with
  | JStr s => Ok (lower_string s)
  | _ => Err (attr_error v "lower")
  end.

(** Code points of a UTF-8 text: a continuation byte [10xxxxxx] joins the
    preceding character. *)
Definition utf8_cont (c : ascii) : bool :=
  let n := nat_of_ascii c in Nat.leb 128 n && Nat.ltb n 192.

Fixpoint utf8_chars (s : string) : list string :=
  match s with
  | EmptyString => []
  | String c s' =>
      match utf8_chars s' with
      | d :: rest =>
          match d with
          | String c' _ => if utf8_cont c' then String c d :: rest
                           else String c EmptyString :: d :: rest
          | EmptyString => [String c EmptyString]
          end
      | [] => [String c EmptyString]
      end
  end.

(** [iter(v)]: a list yields its items, a dict its keys, a str its characters. *)
Definition py_iter (v : json) : res (list json) :=
  match v with
  | JList l => Ok l
  | JObj kvs => Ok (map (fun kv => JStr (fst kv)) kvs)
  | JStr s => Ok (map JStr (utf8_chars s))
  | _ => Err (mkExc TypeError (repr_str (type_name v) ++ " object is not iterable"))
  end.

(** [len(v)] *)
Definition py_len (v : json) : res Z :=
  match v with
  | JList l => Ok (Z.of_nat (length l))
  | JObj kvs => Ok (Z.of_nat (length kvs))
  | JStr s => Ok (Z.of_nat (length (utf8_chars s)))
  | _ => Err (mkExc TypeError ("object of type " ++ repr_str (type_name v) ++ " has no len()"))
  end.

(** [sep.join(v)] *)
Fixpoint join_strs (i : nat) (xs : list json) : res (list string) :=
  match xs with
  | [] => Ok []
  | JStr s :: r => match join_strs (S i) r with Ok l => Ok (s :: l) | Err e => Err e end
  | x :: _ => Err (mkExc TypeError ("sequence item " ++ z_to_dec (Z.of_nat i)
                     ++ ": expected str instance, " ++ type_name x ++ " found"))
  end.

Definition py_join (sep : string) (v : json) : res string :=
  match py_iter v with
  | Err _ => Err (mkExc TypeError "can only join an iterable")
  | Ok xs => match join_strs 0 xs with Ok l => Ok (str_join sep l) | Err e => Err e end
  end.

(** [acc += v] where [acc] is a [str] *)
Definition py_str_concat (acc : string) (v : json) : res string :=
  match v with
  | JStr s => Ok (acc ++ s)
  | _ => Err (mkExc TypeError ("can only concatenate str (not " ++ String dquote (type_name v ++ String dquote EmptyString) ++ ") to str"))
  end.

(** ** HTTP requests and the server's effect monad *)

(** One request issued through [httpx.AsyncClient.request]. *)
Record request : Type := mkRequest {
  rq_method : string;
  rq_url : string;
  rq_params : option (list (string * json));
  rq_body : option json
}.

(** What the transport yields for a request: an [httpx.RequestError]
    (DNS, refused connection, timeout), another exception raised while
    sending, or a response with its status code, its text and the outcome
    of [response.json()] (the decoded value or the decoder's message). *)
Inductive http_outcome : Type :=
| RequestError (msg : string)
| OtherFailure (msg : string)
| Response (status : Z) (text : string) (parsed : json + string).

(** The log of requests sent so far. *)
Definition trace := list request.

(** A computation of the server: it may raise and it sends requests. *)
Definition M (A : Type) : Type := trace -> res A * trace.

Definition ret {A} (a : A) : M A := fun tr => (Ok a, tr).
Definition raise {A} (e : exc) : M A := fun tr => (Err e, tr).
Definition bind {A B} (m : M A) (k : A -> M B) : M B :=
  fun tr => match m tr with
            | (Ok a, tr') => k a tr'
            | (Err e, tr') => (Err e, tr')
            end.
(** [try: m except Exception as e: h(e)] *)
Definition try_except {A} (m : M A) (h : exc -> M A) : M A :=
  fun tr => match m tr with
            | (Ok a, tr') => (Ok a, tr')
            | (Err e, tr') => h e tr'
            end.
Definition lift {A} (r : res A) : M A :=
  match r with Ok a => ret a | Err e => raise e end.

Notation "x <- m ;; k" := (bind m (fun x => k))
  (at level 61, m at next level, right associativity).

(** [for x in xs: acc = body(acc, x)] *)
Fixpoint py_for (xs : list json) (acc : string) (body : string -> json -> M string) : M string :=
  match xs with
  | [] => ret acc
  | x :: r => acc' <- body acc x ;; py_for r acc' body
  end.

Definition nl : string := newline.

(** [endpoint.lstrip('/')] *)
Fixpoint lstrip_slash (s : string) : string :=
  match s with
  | String c s' => if Ascii.eqb c "/"%char then lstrip_slash s' else s
  | EmptyString => EmptyString
  end.

(** ** The tool registry: [mcp.types.Tool] and [list_tools]. *)
Record Tool : Type := mkTool {
  tool_name : string;
  tool_description : string;
  inputSchema : json
}.

(** [list_tools]: the literal list returned by the source, in its order. *)
Definition list_tools : list Tool := [
  mkTool "get_dags"
    "List all DAGs in Airflow with optional filtering by paused status"
    (JObj [
      ("type", JStr "object");
      ("properties", JObj [
        ("only_active", JObj [
          ("type", JStr "boolean");
          ("description", JStr "If true, only return active (unpaused) DAGs")]);
        ("limit", JObj [
          ("type", JStr "integer");
          ("description", JStr "Maximum number of DAGs to return (default: 100)");
          ("default", JInt 100)])])]);
  mkTool "get_dag_tasks"
    "Get all tasks in a specific DAG"
    (JObj [
      ("type", JStr "object");
      ("properties", JObj [
        ("dag_id", JObj [
          ("type", JStr "string");
          ("description", JStr "The ID of the DAG")])]);
      ("required", JList [JStr "dag_id"])]);
  mkTool "trigger_dag_run"
    "Trigger a new DAG run"
    (JObj [
      ("type", JStr "object");
      ("properties", JObj [
        ("dag_id", JObj [
          ("type", JStr "string");
          ("description", JStr "The ID of the DAG to trigger")]);
        ("conf", JObj [
          ("type", JStr "object");
          ("description", JStr "Optional configuration JSON to pass to the DAG run")]);
        ("logical_date", JObj [
          ("type", JStr "string");
          ("description", JStr "Optional logical date for the DAG run (ISO format)")])]);
      ("required", JList [JStr "dag_id"])]);
  mkTool "clear_dag_run"
    "Clear/retry a DAG run (resets failed tasks)"
    (JObj [
      ("type", JStr "object");
      ("properties", JObj [
        ("dag_id", JObj [
          ("type", JStr "string");
          ("description", JStr "The ID of the DAG")]);
        ("dag_run_id", JObj [
          ("type", JStr "string");
          ("description", JStr "The ID of the DAG run to clear")]);
        ("dry_run", JObj [
          ("type", JStr "boolean");
          ("description", JStr "If true, only show what would be cleared without actually clearing");
          ("default", JBool false)])]);
      ("required", JList [JStr "dag_id"; JStr "dag_run_id"])]);
  mkTool "set_dag_state"
    "Pause or unpause a DAG"
    (JObj [
      ("type", JStr "object");
      ("properties", JObj [
        ("dag_id", JObj [
          ("type", JStr "string");
          ("description", JStr "The ID of the DAG")]);
        ("is_paused", JObj [
          ("type", JStr "boolean");
          ("description", JStr "True to pause the DAG, False to unpause it")])]);
      ("required", JList [JStr "dag_id"; JStr "is_paused"])]);
  mkTool "get_dag_runs"
    "Get DAG run history with optional status filtering"
    (JObj [
      ("type", JStr "object");
      ("properties", JObj [
        ("dag_id", JObj [
          ("type", JStr "string");
          ("description", JStr "The ID of the DAG")]);
        ("state", JObj [
          ("type", JStr "string");
          ("description", JStr "Filter by state (success, failed, running, queued)")]);
        ("limit", JObj [
          ("type", JStr "integer");
          ("description", JStr "Maximum number of runs to return (default: 25)");
          ("default", JInt 25)])]);
      ("required", JList [JStr "dag_id"])]);
  mkTool "get_task_instances"
    "Get task instances for a specific DAG run"
    (JObj [
      ("type", JStr "object");
      ("properties", JObj [
        ("dag_id", JObj [
          ("type", JStr "string");
          ("description", JStr "The ID of the DAG")]);
        ("dag_run_id", JObj [
          ("type", JStr "string");
          ("description", JStr "The ID of the DAG run")])]);
      ("required", JList [JStr "dag_id"; JStr "dag_run_id"])]);
  mkTool "get_dag_stats"
    "Get aggregate statistics for all DAGs"
    (JObj [
      ("type", JStr "object");
      ("properties", JObj [])]);
  mkTool "get_task_logs"
    "Get execution logs for a specific task instance"
    (JObj [
      ("type", JStr "object");
      ("properties", JObj [
        ("dag_id", JObj [
          ("type", JStr "string");
          ("description", JStr "The ID of the DAG")]);
        ("dag_run_id", JObj [
          ("type", JStr "string");
          ("description", JStr "The ID of the DAG run")]);
        ("task_id", JObj [
          ("type", JStr "string");
          ("description", JStr "The ID of the task")]);
        ("try_number", JObj [
          ("type", JStr "integer");
          ("description", JStr "The try number of the task (default: 1)");
          ("default", JInt 1)])]);
      ("required", JList [JStr "dag_id"; JStr "dag_run_id"; JStr "task_id"])]);
  mkTool "get_import_errors"
    "Get DAG import/parsing errors"
    (JObj [
      ("type", JStr "object");
      ("properties", JObj [])]);
  mkTool "get_connections"
    "List all Airflow connections"
    (JObj [
      ("type", JStr "object");
      ("properties", JObj [
        ("limit", JObj [
          ("type", JStr "integer");
          ("description", JStr "Maximum number of connections to return (default: 100)");
          ("default", JInt 100)])])]);
  mkTool "get_connection"
    "Get details of a specific connection"
    (JObj [
      ("type", JStr "object");
      ("properties", JObj [
        ("connection_id", JObj [
          ("type", JStr "string");
          ("description", JStr "The ID of the connection")])]);
      ("required", JList [JStr "connection_id"])]);
  mkTool "test_connection"
    "Test a connection to verify it works"
    (JObj [
      ("type", JStr "object");
      ("properties", JObj [
        ("connection_id", JObj [
          ("type", JStr "string");
          ("description", JStr "The ID of the connection to test")])]);
      ("required", JList [JStr "connection_id"])]);
  mkTool "check_health"
    "Check Airflow system health (scheduler and database status)"
    (JObj [
      ("type", JStr "object");
      ("properties", JObj [])])
].


(** [mcp.types.TextContent] *)
Record TextContent : Type := mkText { tc_type : string; tc_text : string }.

Definition text_result (s : string) : list TextContent := [mkText "text" s].

(** [{...}.get(key, default)] on a literal [dict] of strings. *)
Fixpoint lookup_str (k : string) (d : list (string * string)) (default : string) : string :=
  match d with
  | [] => default
  | (k', v) :: r => if String.eqb k k' then v else lookup_str k r default
  end.

(** The emoji table of the [get_dag_runs] branch. *)
Definition dag_run_state_emoji : list (string * string) :=
  [("success", "✅"); ("failed", "❌"); ("running", "🔄"); ("queued", "⏳")].

(** The emoji table of the [get_task_instances] branch. *)
Definition task_instance_state_emoji : list (string * string) :=
  [("success", "✅"); ("failed", "❌"); ("running", "🔄"); ("queued", "⏳"); ("skipped", "⏭️")].

(** [v == "healthy"] *)
Definition is_healthy (v : json) : bool :=
  match v with JStr s => String.eqb s "healthy" | _ => false end.

Section Server.

(** Module-level configuration: [AIRFLOW_API_URL] and [AIRFLOW_BASE_URL]. *)
Variable AIRFLOW_API_URL AIRFLOW_BASE_URL : string.

(** The upstream API: its answer to a request may depend on every request
    sent before it. *)
Variable upstream : trace -> request -> http_outcome.

(** [make_api_request] *)
Definition make_api_request (method endpoint : string)
    (params : option (list (string * json))) (json_data : option json) : M json :=
  fun tr =>
    let url := AIRFLOW_API_URL ++ "/" ++ lstrip_slash endpoint in
    let rq := mkRequest method url params json_data in
    let tr' := app tr [rq] in
    match upstream tr rq with
    | Response status text parsed =>
        if Z.leb 200 status && Z.ltb status 300 then
          (* response.raise_for_status(); return response.json() *)
          match parsed with
          | inl j => (Ok j, tr')
          | inr msg => (Err (mkExc PyException ("Unexpected error: " ++ msg)), tr')
          end
        else
          (* except httpx.HTTPStatusError *)
          let error_detail :=
            match parsed with
            | inl (JObj kvs) =>
                match assoc "detail" kvs with Some d => py_str d | None => text end
            | _ => text
            end in
          (Err (mkExc PyException ("API request failed (" ++ z_to_dec status ++ "): " ++ error_detail)), tr')
    | RequestError msg => (Err (mkExc PyException ("Connection error: " ++ msg)), tr')
    | OtherFailure msg => (Err (mkExc PyException ("Unexpected error: " ++ msg)), tr')
    end.

(** *** The branches of [call_tool], one per tool, in the source's order. *)

(** [get_dags] branch *)
Definition call_get_dags (arguments : json) : M (list TextContent) :=
  only_active <- lift (py_get arguments "only_active" (JBool false)) ;;
  limit <- lift (py_get arguments "limit" (JInt 100)) ;;
  let params := app [("limit", limit)]
                  (if py_truthy only_active then [("only_active", JStr "true")] else []) in
  result <- make_api_request "GET" "dags" (Some params) None ;;
  dags <- lift (py_get result "dags" (JList [])) ;;
  n <- lift (py_len dags) ;;
  xs <- lift (py_iter dags) ;;
  summary <- py_for xs ("Found " ++ z_to_dec n ++ " DAGs:" ++ nl ++ nl) (fun summary dag =>
    is_paused <- lift (py_get dag "is_paused" JNull) ;;
    let status := if py_truthy is_paused then "⏸️ Paused" else "▶️ Active" in
    dag_id <- lift (py_index dag "dag_id") ;;
    let summary := summary ++ "- **" ++ py_str dag_id ++ "** (" ++ status ++ ")" ++ nl in
    description <- lift (py_get dag "description" (JStr "N/A")) ;;
    let summary := summary ++ "  - Description: " ++ py_str description ++ nl in
    schedule <- lift (py_get dag "schedule_interval" (JStr "N/A")) ;;
    ret (summary ++ "  - Schedule: " ++ py_str schedule ++ nl ++ nl)) ;;
  ret (text_result summary).

(** [get_dag_tasks] branch *)
Definition call_get_dag_tasks (arguments : json) : M (list TextContent) :=
  dag_id <- lift (py_index arguments "dag_id") ;;
  result <- make_api_request "GET" ("dags/" ++ py_str dag_id ++ "/tasks") None None ;;
  tasks <- lift (py_get result "tasks" (JList [])) ;;
  n <- lift (py_len tasks) ;;
  xs <- lift (py_iter tasks) ;;
  summary <- py_for xs ("Tasks in DAG '" ++ py_str dag_id ++ "' (" ++ z_to_dec n ++ " tasks):" ++ nl ++ nl)
    (fun summary task =>
    task_id <- lift (py_index task "task_id") ;;
    let summary := summary ++ "- **" ++ py_str task_id ++ "**" ++ nl in
    operator_name <- lift (py_get task "operator_name" (JStr "N/A")) ;;
    let summary := summary ++ "  - Type: " ++ py_str operator_name ++ nl in
    downstream <- lift (py_get task "downstream_task_ids" (JList [])) ;;
    joined <- lift (py_join ", " downstream) ;;
    ret (summary ++ "  - Downstream: " ++ joined ++ nl ++ nl)) ;;
  ret (text_result summary).

(** [trigger_dag_run] branch *)
Definition call_trigger_dag_run (arguments : json) : M (list TextContent) :=
  dag_id <- lift (py_index arguments "dag_id") ;;
  conf <- lift (py_get arguments "conf" (JObj [])) ;;
  logical_date <- lift (py_get arguments "logical_date" JNull) ;;
  let body := app (if py_truthy conf then [("conf", conf)] else [])
                  (if py_truthy logical_date then [("logical_date", logical_date)] else []) in
  result <- make_api_request "POST" ("dags/" ++ py_str dag_id ++ "/dagRuns") None (Some (JObj body)) ;;
  let summary := "✅ DAG run triggered successfully!" ++ nl ++ nl in
  r_dag_id <- lift (py_index result "dag_id") ;;
  let summary := summary ++ "- **DAG ID**: " ++ py_str r_dag_id ++ nl in
  r_run_id <- lift (py_index result "dag_run_id") ;;
  let summary := summary ++ "- **Run ID**: " ++ py_str r_run_id ++ nl in
  r_state <- lift (py_index result "state") ;;
  let summary := summary ++ "- **State**: " ++ py_str r_state ++ nl in
  r_date <- lift (py_get result "execution_date" (JStr "N/A")) ;;
  ret (text_result (summary ++ "- **Execution Date**: " ++ py_str r_date ++ nl)).

(** [clear_dag_run] branch *)
Definition call_clear_dag_run (arguments : json) : M (list TextContent) :=
  dag_id <- lift (py_index arguments "dag_id") ;;
  dag_run_id <- lift (py_index arguments "dag_run_id") ;;
  dry_run <- lift (py_get arguments "dry_run" (JBool false)) ;;
  let body := JObj [("dry_run", dry_run)] in
  result <- make_api_request "POST"
              ("dags/" ++ py_str dag_id ++ "/dagRuns/" ++ py_str dag_run_id ++ "/clear") None (Some body) ;;
  let summary := if py_truthy dry_run
                 then "🔍 Dry run - Tasks that would be cleared:" ++ nl ++ nl
                 else "✅ DAG run cleared successfully!" ++ nl ++ nl in
  task_instances <- lift (py_get result "task_instances" (JList [])) ;;
  xs <- lift (py_iter task_instances) ;;
  summary <- py_for xs summary (fun summary ti =>
    task_id <- lift (py_index ti "task_id") ;;
    try_number <- lift (py_get ti "try_number" (JStr "N/A")) ;;
    ret (summary ++ "- " ++ py_str task_id ++ " (Try: " ++ py_str try_number ++ ")" ++ nl)) ;;
  ret (text_result summary).

(** [set_dag_state] branch *)
Definition call_set_dag_state (arguments : json) : M (list TextContent) :=
  dag_id <- lift (py_index arguments "dag_id") ;;
  is_paused <- lift (py_index arguments "is_paused") ;;
  let body := JObj [("is_paused", is_paused)] in
  result <- make_api_request "PATCH" ("dags/" ++ py_str dag_id) None (Some body) ;;
  let state_str := if py_truthy is_paused then "⏸️ PAUSED" else "▶️ ACTIVE" in
  let summary := "✅ DAG '" ++ py_str dag_id ++ "' is now " ++ state_str ++ nl ++ nl in
  description <- lift (py_get result "description" (JStr "N/A")) ;;
  let summary := summary ++ "- **Description**: " ++ py_str description ++ nl in
  schedule <- lift (py_get result "schedule_interval" (JStr "N/A")) ;;
  ret (text_result (summary ++ "- **Schedule**: " ++ py_str schedule ++ nl)).

(** [get_dag_runs] branch *)
Definition call_get_dag_runs (arguments : json) : M (list TextContent) :=
  dag_id <- lift (py_index arguments "dag_id") ;;
  state <- lift (py_get arguments "state" JNull) ;;
  limit <- lift (py_get arguments "limit" (JInt 25)) ;;
  let params := app [("limit", limit)] (if py_truthy state then [("state", state)] else []) in
  result <- make_api_request "GET" ("dags/" ++ py_str dag_id ++ "/dagRuns") (Some params) None ;;
  dag_runs <- lift (py_get result "dag_runs" (JList [])) ;;
  n <- lift (py_len dag_runs) ;;
  xs <- lift (py_iter dag_runs) ;;
  summary <- py_for xs ("DAG runs for '" ++ py_str dag_id ++ "' (" ++ z_to_dec n ++ " runs):" ++ nl ++ nl)
    (fun summary run =>
    run_state <- lift (py_get run "state" (JStr "")) ;;
    lowered <- lift (py_lower run_state) ;;
    let state_emoji := lookup_str lowered dag_run_state_emoji "❓" in
    run_id <- lift (py_index run "dag_run_id") ;;
    let summary := summary ++ state_emoji ++ " **" ++ py_str run_id ++ "**" ++ nl in
    st <- lift (py_get run "state" (JStr "N/A")) ;;
    let summary := summary ++ "  - State: " ++ py_str st ++ nl in
    start <- lift (py_get run "start_date" (JStr "N/A")) ;;
    let summary := summary ++ "  - Start: " ++ py_str start ++ nl in
    end_date <- lift (py_get run "end_date" (JStr "N/A")) ;;
    ret (summary ++ "  - End: " ++ py_str end_date ++ nl ++ nl)) ;;
  ret (text_result summary).

(** [get_task_instances] branch *)
Definition call_get_task_instances (arguments : json) : M (list TextContent) :=
  dag_id <- lift (py_index arguments "dag_id") ;;
  dag_run_id <- lift (py_index arguments "dag_run_id") ;;
  result <- make_api_request "GET"
              ("dags/" ++ py_str dag_id ++ "/dagRuns/" ++ py_str dag_run_id ++ "/taskInstances") None None ;;
  task_instances <- lift (py_get result "task_instances" (JList [])) ;;
  xs <- lift (py_iter task_instances) ;;
  summary <- py_for xs ("Task instances for '" ++ py_str dag_id ++ "' run '" ++ py_str dag_run_id ++ "':" ++ nl ++ nl)
    (fun summary ti =>
    ti_state <- lift (py_get ti "state" (JStr "")) ;;
    lowered <- lift (py_lower ti_state) ;;
    let state_emoji := lookup_str lowered task_instance_state_emoji "❓" in
    task_id <- lift (py_index ti "task_id") ;;
    let summary := summary ++ state_emoji ++ " **" ++ py_str task_id ++ "**" ++ nl in
    st <- lift (py_get ti "state" (JStr "N/A")) ;;
    let summary := summary ++ "  - State: " ++ py_str st ++ nl in
    try_number <- lift (py_get ti "try_number" (JStr "N/A")) ;;
    let summary := summary ++ "  - Try Number: " ++ py_str try_number ++ nl in
    duration <- lift (py_get ti "duration" (JStr "N/A")) ;;
    ret (summary ++ "  - Duration: " ++ py_str duration ++ "s" ++ nl ++ nl)) ;;
  ret (text_result summary).

(** [get_dag_stats] branch *)
Definition call_get_dag_stats (arguments : json) : M (list TextContent) :=
  result <- make_api_request "GET" "dagStats" None None ;;
  stats <- lift (py_get result "dags" (JList [])) ;;
  xs <- lift (py_iter stats) ;;
  summary <- py_for xs ("📊 DAG Statistics:" ++ nl ++ nl) (fun summary dag_stat =>
    d <- lift (py_index dag_stat "dag_id") ;;
    let summary := summary ++ "**" ++ py_str d ++ "**:" ++ nl in
    inner <- lift (py_get dag_stat "stats" (JList [])) ;;
    ys <- lift (py_iter inner) ;;
    summary <- py_for ys summary (fun summary state_stat =>
      st <- lift (py_index state_stat "state") ;;
      cnt <- lift (py_index state_stat "count") ;;
      ret (summary ++ "  - " ++ py_str st ++ ": " ++ py_str cnt ++ nl)) ;;
    ret (summary ++ nl)) ;;
  ret (text_result summary).

(** The task-instance fallback of the [get_task_logs] branch, run with the
    exception [e] of the primary attempt. *)
Definition task_logs_fallback (dag_id dag_run_id task_id : json) (e : exc) : M (list TextContent) :=
  ti_result <- make_api_request "GET"
                 ("dags/" ++ py_str dag_id ++ "/dagRuns/" ++ py_str dag_run_id ++ "/taskInstances/" ++ py_str task_id)
                 None None ;;
  let summary := "ℹ️ Task Instance Info for '" ++ py_str task_id ++ "':" ++ nl ++ nl in
  st <- lift (py_get ti_result "state" (JStr "N/A")) ;;
  let summary := summary ++ "- State: " ++ py_str st ++ nl in
  tn <- lift (py_get ti_result "try_number" (JStr "N/A")) ;;
  let summary := summary ++ "- Try Number: " ++ py_str tn ++ nl in
  sd <- lift (py_get ti_result "start_date" (JStr "N/A")) ;;
  let summary := summary ++ "- Start Date: " ++ py_str sd ++ nl in
  ed <- lift (py_get ti_result "end_date" (JStr "N/A")) ;;
  let summary := summary ++ "- End Date: " ++ py_str ed ++ nl ++ nl in
  let summary := summary ++ "⚠️ Note: Direct log retrieval failed. You may need to access logs through the Airflow UI at:" ++ nl in
  let summary := summary ++ AIRFLOW_BASE_URL ++ "/dags/" ++ py_str dag_id ++ "/grid?dag_run_id=" ++ py_str dag_run_id
                 ++ "&task_id=" ++ py_str task_id ++ nl ++ nl in
  ret (text_result (summary ++ "Error: " ++ ex_msg e)).

(** The [try] block of the [get_task_logs] branch: the logs request. *)
Definition task_logs_primary (endpoint : string) (task_id try_number : json) : M (list TextContent) :=
  result <- make_api_request "GET" endpoint None None ;;
  log_content <- lift (match result with
                       | JObj _ => py_get result "content" (JStr (py_str result))
                       | _ => Ok (JStr (py_str result))
                       end) ;;
  let summary := "📝 Logs for task '" ++ py_str task_id ++ "' (Try #" ++ py_str try_number ++ "):" ++ nl ++ nl in
  let summary := summary ++ "```" ++ nl in
  summary <- lift (py_str_concat summary log_content) ;;
  ret (text_result (summary ++ nl ++ "```")).

(** The endpoint of the logs request. *)
Definition task_logs_endpoint (dag_id dag_run_id task_id try_number : json) : string :=
  "dags/" ++ py_str dag_id ++ "/dagRuns/" ++ py_str dag_run_id ++ "/taskInstances/"
  ++ py_str task_id ++ "/logs/" ++ py_str try_number.

(** [get_task_logs] branch *)
Definition call_get_task_logs (arguments : json) : M (list TextContent) :=
  dag_id <- lift (py_index arguments "dag_id") ;;
  dag_run_id <- lift (py_index arguments "dag_run_id") ;;
  task_id <- lift (py_index arguments "task_id") ;;
  try_number <- lift (py_get arguments "try_number" (JInt 1)) ;;
  let endpoint := task_logs_endpoint dag_id dag_run_id task_id try_number in
  try_except (task_logs_primary endpoint task_id try_number)
    (task_logs_fallback dag_id dag_run_id task_id).

(** [get_import_errors] branch *)
Definition call_get_import_errors (arguments : json) : M (list TextContent) :=
  result <- make_api_request "GET" "importErrors" None None ;;
  errors <- lift (py_get result "import_errors" (JList [])) ;;
  if negb (py_truthy errors) then ret (text_result "✅ No DAG import errors found!")
  else
    n <- lift (py_len errors) ;;
    xs <- lift (py_iter errors) ;;
    summary <- py_for xs ("⚠️ Found " ++ z_to_dec n ++ " DAG import errors:" ++ nl ++ nl) (fun summary error =>
      filename <- lift (py_get error "filename" (JStr "Unknown file")) ;;
      let summary := summary ++ "**" ++ py_str filename ++ "**:" ++ nl in
      stack_trace <- lift (py_get error "stack_trace" (JStr "No error details")) ;;
      ret (summary ++ "```" ++ nl ++ py_str stack_trace ++ nl ++ "```" ++ nl ++ nl)) ;;
    ret (text_result summary).

(** [get_connections] branch *)
Definition call_get_connections (arguments : json) : M (list TextContent) :=
  limit <- lift (py_get arguments "limit" (JInt 100)) ;;
  result <- make_api_request "GET" "connections" (Some [("limit", limit)]) None ;;
  connections <- lift (py_get result "connections" (JList [])) ;;
  n <- lift (py_len connections) ;;
  xs <- lift (py_iter connections) ;;
  summary <- py_for xs ("🔌 Airflow Connections (" ++ z_to_dec n ++ " connections):" ++ nl ++ nl) (fun summary conn =>
    cid <- lift (py_index conn "connection_id") ;;
    let summary := summary ++ "- **" ++ py_str cid ++ "**" ++ nl in
    ct <- lift (py_get conn "conn_type" (JStr "N/A")) ;;
    let summary := summary ++ "  - Type: " ++ py_str ct ++ nl in
    host <- lift (py_get conn "host" (JStr "N/A")) ;;
    let summary := summary ++ "  - Host: " ++ py_str host ++ nl in
    schema <- lift (py_get conn "schema" (JStr "N/A")) ;;
    ret (summary ++ "  - Schema: " ++ py_str schema ++ nl ++ nl)) ;;
  ret (text_result summary).

(** [get_connection] branch *)
Definition call_get_connection (arguments : json) : M (list TextContent) :=
  connection_id <- lift (py_index arguments "connection_id") ;;
  result <- make_api_request "GET" ("connections/" ++ py_str connection_id) None None ;;
  let summary := "🔌 Connection Details: **" ++ py_str connection_id ++ "**" ++ nl ++ nl in
  ct <- lift (py_get result "conn_type" (JStr "N/A")) ;;
  let summary := summary ++ "- **Type**: " ++ py_str ct ++ nl in
  host <- lift (py_get result "host" (JStr "N/A")) ;;
  let summary := summary ++ "- **Host**: " ++ py_str host ++ nl in
  schema <- lift (py_get result "schema" (JStr "N/A")) ;;
  let summary := summary ++ "- **Schema**: " ++ py_str schema ++ nl in
  login <- lift (py_get result "login" (JStr "N/A")) ;;
  let summary := summary ++ "- **Login**: " ++ py_str login ++ nl in
  port <- lift (py_get result "port" (JStr "N/A")) ;;
  let summary := summary ++ "- **Port**: " ++ py_str port ++ nl in
  extra <- lift (py_get result "extra" (JStr "N/A")) ;;
  ret (text_result (summary ++ "- **Extra**: " ++ py_str extra ++ nl)).

(** [test_connection] branch *)
Definition call_test_connection (arguments : json) : M (list TextContent) :=
  connection_id <- lift (py_index arguments "connection_id") ;;
  try_except
    (result <- make_api_request "GET" ("connections/" ++ py_str connection_id) None None ;;
     let summary := "✅ Connection '" ++ py_str connection_id ++ "' is accessible!" ++ nl ++ nl in
     ct <- lift (py_get result "conn_type" (JStr "N/A")) ;;
     let summary := summary ++ "- **Type**: " ++ py_str ct ++ nl in
     host <- lift (py_get result "host" (JStr "N/A")) ;;
     let summary := summary ++ "- **Host**: " ++ py_str host ++ nl ++ nl in
     let summary := summary ++ "ℹ️ Note: This tests API accessibility. To test actual connectivity to the external service, " in
     let summary := summary ++ "you'll need to trigger a DAG that uses this connection." ++ nl in
     ret (text_result summary))
    (fun e =>
     let summary := "❌ Connection test failed for '" ++ py_str connection_id ++ "':" ++ nl ++ nl in
     ret (text_result (summary ++ "Error: " ++ ex_msg e ++ nl))).

(** [check_health] branch *)
Definition call_check_health (arguments : json) : M (list TextContent) :=
  result <- make_api_request "GET" "health" None None ;;
  let summary := "🏥 Airflow Health Status:" ++ nl ++ nl in
  metadatabase <- lift (py_get result "metadatabase" (JObj [])) ;;
  scheduler <- lift (py_get result "scheduler" (JObj [])) ;;
  db_status <- lift (py_get metadatabase "status" (JStr "unknown")) ;;
  scheduler_status <- lift (py_get scheduler "status" (JStr "unknown")) ;;
  let db_emoji := if is_healthy db_status then "✅" else "❌" in
  let scheduler_emoji := if is_healthy scheduler_status then "✅" else "❌" in
  let summary := summary ++ db_emoji ++ " **Metadatabase**: " ++ py_str db_status ++ nl in
  let summary := summary ++ scheduler_emoji ++ " **Scheduler**: " ++ py_str scheduler_status ++ nl in
  hb <- lift (py_get scheduler "latest_scheduler_heartbeat" JNull) ;;
  if py_truthy hb then
    hb' <- lift (py_index scheduler "latest_scheduler_heartbeat") ;;
    ret (text_result (summary ++ nl ++ "📅 Latest Scheduler Heartbeat: " ++ py_str hb' ++ nl))
  else ret (text_result summary).

(** The body of the [try] block of [call_tool]: the [if]/[elif] chain. *)
Definition call_tool_body (name : string) (arguments : json) : M (list TextContent) :=
  if String.eqb name "get_dags" then call_get_dags arguments
  else if String.eqb name "get_dag_tasks" then call_get_dag_tasks arguments
  else if String.eqb name "trigger_dag_run" then call_trigger_dag_run arguments
  else if String.eqb name "clear_dag_run" then call_clear_dag_run arguments
  else if String.eqb name "set_dag_state" then call_set_dag_state arguments
  else if String.eqb name "get_dag_runs" then call_get_dag_runs arguments
  else if String.eqb name "get_task_instances" then call_get_task_instances arguments
  else if String.eqb name "get_dag_stats" then call_get_dag_stats arguments
  else if String.eqb name "get_task_logs" then call_get_task_logs arguments
  else if String.eqb name "get_import_errors" then call_get_import_errors arguments
  else if String.eqb name "get_connections" then call_get_connections arguments
  else if String.eqb name "get_connection" then call_get_connection arguments
  else if String.eqb name "test_connection" then call_test_connection arguments
  else if String.eqb name "check_health" then call_check_health arguments
  else raise (mkExc ValueError ("Unknown tool: " ++ name)).

(** The text the [except Exception as e] clause of [call_tool] returns. *)
Definition error_text (name : string) (e : exc) : string :=
  "❌ Error executing '" ++ name ++ "':" ++ nl ++ nl ++ ex_msg e.

(** [call_tool] *)
Definition call_tool (name : string) (arguments : json) : M (list TextContent) :=
  try_except (call_tool_body name arguments)
    (fun e => ret (text_result (error_text name e))).

End Server.

(** ** A session: list-tools requests and tool invocations in any order *)

Inductive op : Type :=
| ListToolsOp
| CallToolOp (name : string) (arguments : json).

Inductive reply : Type :=
| RTools (ts : list Tool)
| RText (out : list TextContent).

Fixpoint serve (api_url base_url : string) (up : trace -> request -> http_outcome) (ops : list op)
  : M (list reply) :=
  match ops with
  | [] => ret []
  | ListToolsOp :: r =>
      ts <- ret list_tools ;;
      rest <- serve api_url base_url up r ;;
      ret (RTools ts :: rest)
  | CallToolOp name arguments :: r =>
      out <- call_tool api_url base_url up name arguments ;;
      rest <- serve api_url base_url up r ;;
      ret (RText out :: rest)
  end.

(** Reading of an input schema: its [type], the names of its [properties],
    and its [required] list, absent read as empty. *)
Definition schema_is_object (t : Tool) : bool :=
  match inputSchema t with
  | JObj kvs => match assoc "type" kvs with Some (JStr ty) => String.eqb ty "object" | _ => false end
  | _ => false
  end.

Definition schema_property_names (t : Tool) : option (list string) :=
  match inputSchema t with
  | JObj kvs => match assoc "properties" kvs with Some (JObj ps) => Some (map fst ps) | _ => None end
  | _ => None
  end.

Definition schema_required (t : Tool) : list json :=
  match inputSchema t with
  | JObj kvs => match assoc "required" kvs with Some (JList l) => l | _ => [] end
  | _ => []
  end.

(** The parameter list of the interface description, a parameter paired
    with [true] when it is required. *)
Definition spec_tool_params : list (string * list (string * bool)) := [
  ("get_dags", [("only_active", false); ("limit", false)]);
  ("get_dag_tasks", [("dag_id", true)]);
  ("trigger_dag_run", [("dag_id", true); ("conf", false); ("logical_date", false)]);
  ("clear_dag_run", [("dag_id", true); ("dag_run_id", true); ("dry_run", false)]);
  ("set_dag_state", [("dag_id", true); ("is_paused", true)]);
  ("get_dag_runs", [("dag_id", true); ("state", false); ("limit", false)]);
  ("get_task_instances", [("dag_id", true); ("dag_run_id", true)]);
  ("get_dag_stats", []);
  ("get_task_logs", [("dag_id", true); ("dag_run_id", true); ("task_id", true); ("try_number", false)]);
  ("get_import_errors", []);
  ("get_connections", [("limit", false)]);
  ("get_connection", [("connection_id", true)]);
  ("test_connection", [("connection_id", true)]);
  ("check_health", [])].

Definition spec_schema_view (p : string * list (string * bool)) : string * option (list string) * list json :=
  (fst p, Some (map fst (snd p)), map (fun q => JStr (fst q)) (filter snd (snd p))).

Definition schema_view (t : Tool) : string * option (list string) * list json :=
  (tool_name t, schema_property_names t, schema_required t).


(** ** Predicates and stubbed upstreams used by the properties *)

(** A computation whose every successful result is a single text. *)
Definition single_text (m : M (list TextContent)) : Prop :=
  forall tr, match fst (m tr) with
             | Ok r => exists s, r = text_result s
             | Err _ => True
             end.

(** A computation that sends no request, or raises [e0]. *)
Definition quiet_or_raises {A} (e0 : exc) (m : M A) : Prop :=
  forall tr, snd (m tr) = tr \/ fst (m tr) = Err e0.

(** A computation that always raises [e0]. *)
Definition always_raises {A} (e0 : exc) (m : M A) : Prop :=
  forall tr, fst (m tr) = Err e0.

(** A JSON string literal, with its double quotes. *)
Definition json_quoted (s : string) : string := String dquote (s ++ String dquote EmptyString).

(** An upstream answering every request with HTTP 404 and body
    [{"detail":"DAG not found"}]. *)
Definition stub_404 : trace -> request -> http_outcome :=
  fun _ _ => Response 404 ("{" ++ json_quoted "detail" ++ ":" ++ json_quoted "DAG not found" ++ "}")
                      (inl (JObj [("detail", JStr "DAG not found")])).

(** The exception [make_api_request] raises on that answer. *)
Definition not_found_exc : exc := mkExc PyException "API request failed (404): DAG not found".

(** A field of a response object, or the ["N/A"] the handlers print for it. *)
Definition field_or_na (k : string) (kvs : list (string * json)) : json :=
  match assoc k kvs with Some v => v | None => JStr "N/A" end.

(** The endpoint of the task-instance request of the logs fallback. *)
Definition task_instance_endpoint (dag_id dag_run_id task_id : json) : string :=
  "dags/" ++ py_str dag_id ++ "/dagRuns/" ++ py_str dag_run_id ++ "/taskInstances/" ++ py_str task_id.

(** An upstream without the logs endpoint: the logs request gets a 404, any
    other request the task instance [{"state": "failed", "try_number": 1}]. *)
Definition stub_no_logs : trace -> request -> http_outcome :=
  fun _ rq =>
    if contains "/logs/" (rq_url rq)
    then Response 404 "Not Found" (inl (JObj [("detail", JStr "Log not found")]))
    else Response 200 "" (inl (JObj [("state", JStr "failed"); ("try_number", JInt 1)])).

(** A computation that sends no request. *)
Definition no_request {A} (m : M A) : Prop := forall tr, snd (m tr) = tr.

(** An upstream whose [dags] answer is [{"dags":[{"dag_id":"a","is_paused":true}]}]. *)
Definition stub_one_paused_dag : trace -> request -> http_outcome :=
  fun _ _ => Response 200 "" (inl (JObj [("dags", JList [JObj [("dag_id", JStr "a"); ("is_paused", JBool true)]])])).

(** The run marker as the spec words it: success, failed, running and
    queued have their own marker, any other state the generic one. *)
Definition spec_run_marker (state : string) : string :=
  if String.eqb state "success" then "✅"
  else if String.eqb state "failed" then "❌"
  else if String.eqb state "running" then "🔄"
  else if String.eqb state "queued" then "⏳"
  else "❓".

(** The state text of a run as lower-cased for its marker (absent: empty). *)
Definition run_state_text (kvs : list (string * json)) : string :=
  match assoc "state" kvs with Some (JStr s) => s | _ => "" end.

(** What the rendering of a run must begin with: its marker and its id. *)
Definition run_heading (run : json) : string :=
  match run with
  | JObj kvs => spec_run_marker (lower_string (run_state_text kvs)) ++ " **"
                ++ py_str (field_or_na "dag_run_id" kvs) ++ "**"
  | _ => ""
  end.

(** A run the rendering loop accepts: an object with a [dag_run_id] and a
    [state] that is absent or a string. *)
Definition well_formed_run (run : json) : Prop :=
  exists kvs id, run = JObj kvs /\ assoc "dag_run_id" kvs = Some id
    /\ (assoc "state" kvs = None \/ exists s, assoc "state" kvs = Some (JStr s)).

(** A task-instance entry the [get_task_instances] loop renders: an object
    with a [task_id] and a string or absent [state]. *)
Definition well_formed_task_instance (ti : json) : Prop :=
  exists kvs id, ti = JObj kvs /\ assoc "task_id" kvs = Some id
    /\ (assoc "state" kvs = None \/ exists s, assoc "state" kvs = Some (JStr s)).

(** An upstream answering every request with two runs: [r1] in state
    [SUCCESS], [r2] with no state. *)
Definition stub_two_runs : trace -> request -> http_outcome :=
  fun _ _ => Response 200 "" (inl (JObj [("dag_runs", JList
    [JObj [("dag_run_id", JStr "r1"); ("state", JStr "SUCCESS")]; JObj [("dag_run_id", JStr "r2")]])])).

(** An upstream whose every answer lists one run and one task instance,
    both with a [null] state. *)
Definition stub_null_states : trace -> request -> http_outcome :=
  fun _ _ => Response 200 "" (inl (JObj
    [("dag_runs", JList [JObj [("dag_run_id", JStr "r1"); ("state", JNull)]]);
     ("task_instances", JList [JObj [("task_id", JStr "t1"); ("state", JNull)]])])).

(** An upstream whose health answer reports a healthy metadatabase and no
    scheduler. *)
Definition stub_health_db_only : trace -> request -> http_outcome :=
  fun _ _ => Response 200 "" (inl (JObj [("metadatabase", JObj [("status", JStr "healthy")])])).










(** ** Requests sent and exceptions raised *)

(** [m] only appends requests to the log, at most [k] of them, each
    satisfying [P]. *)
Definition sends {A} (P : request -> Prop) (k : nat) (m : M A) : Prop :=
  forall tr, exists new, snd (m tr) = app tr new /\ length new <= k /\ Forall P new.

(** Every exception [m] may raise satisfies [Q]. *)
Definition raises_only {A} (Q : exc -> Prop) (m : M A) : Prop :=
  forall tr, match fst (m tr) with Err e => Q e | Ok _ => True end.

Definition res_only {A} (Q : exc -> Prop) (r : res A) : Prop :=
  match r with Err e => Q e | Ok _ => True end.

(** The HTTP method each tool uses, as its branch of [call_tool] writes it. *)
Definition tool_method (name : string) : string :=
  if String.eqb name "trigger_dag_run" || String.eqb name "clear_dag_run" then "POST"
  else if String.eqb name "set_dag_state" then "PATCH"
  else "GET".

(** The most requests one invocation sends: two for [get_task_logs]
    (logs, then the fallback), one for any other registered tool, none for
    an unknown name. *)
Definition request_bound (name : string) : nat :=
  if String.eqb name "get_task_logs" then 2
  else if existsb (String.eqb name) (map tool_name list_tools) then 1
  else 0.

(** ** Renderings of the remaining branches *)

Fixpoint concat_strs (l : list string) : string :=
  match l with [] => "" | x :: r => x ++ concat_strs r end.

(** [d.get(k, default)] on an answer object. *)
Definition field_or (k : string) (kvs : list (string * json)) (default : json) : json :=
  match assoc k kvs with Some v => v | None => default end.

(** An object with the key [k]. *)
Definition obj_with (k : string) (v : json) : Prop :=
  exists kvs x, v = JObj kvs /\ assoc k kvs = Some x.

(** One line of the [clear_dag_run] summary. *)
Definition clear_line (ti : json) : string :=
  match ti with
  | JObj kvs => "- " ++ py_str (field_or_na "task_id" kvs) ++ " (Try: " ++ py_str (field_or_na "try_number" kvs)
                ++ ")" ++ nl
  | _ => ""
  end.

(** One block of the [get_import_errors] summary. *)
Definition import_error_block (err : json) : string :=
  match err with
  | JObj kvs => "**" ++ py_str (field_or "filename" kvs (JStr "Unknown file")) ++ "**:" ++ nl
                ++ "```" ++ nl ++ py_str (field_or "stack_trace" kvs (JStr "No error details")) ++ nl
                ++ "```" ++ nl ++ nl
  | _ => ""
  end.

(** One block of the [get_connections] summary. *)
Definition connection_block (conn : json) : string :=
  match conn with
  | JObj kvs => "- **" ++ py_str (field_or_na "connection_id" kvs) ++ "**" ++ nl
                ++ "  - Type: " ++ py_str (field_or_na "conn_type" kvs) ++ nl
                ++ "  - Host: " ++ py_str (field_or_na "host" kvs) ++ nl
                ++ "  - Schema: " ++ py_str (field_or_na "schema" kvs) ++ nl ++ nl
  | _ => ""
  end.

(** The [get_connection] summary of connection [cid] answered by [kvs]. *)
Definition connection_details (cid : json) (kvs : list (string * json)) : string :=
  "🔌 Connection Details: **" ++ py_str cid ++ "**" ++ nl ++ nl
  ++ "- **Type**: " ++ py_str (field_or_na "conn_type" kvs) ++ nl
  ++ "- **Host**: " ++ py_str (field_or_na "host" kvs) ++ nl
  ++ "- **Schema**: " ++ py_str (field_or_na "schema" kvs) ++ nl
  ++ "- **Login**: " ++ py_str (field_or_na "login" kvs) ++ nl
  ++ "- **Port**: " ++ py_str (field_or_na "port" kvs) ++ nl
  ++ "- **Extra**: " ++ py_str (field_or_na "extra" kvs) ++ nl.

(** The [test_connection] report of an accessible connection [cid]. *)
Definition connection_accessible (cid : json) (kvs : list (string * json)) : string :=
  "✅ Connection '" ++ py_str cid ++ "' is accessible!" ++ nl ++ nl
  ++ "- **Type**: " ++ py_str (field_or_na "conn_type" kvs) ++ nl
  ++ "- **Host**: " ++ py_str (field_or_na "host" kvs) ++ nl ++ nl
  ++ "ℹ️ Note: This tests API accessibility. To test actual connectivity to the external service, "
  ++ "you'll need to trigger a DAG that uses this connection." ++ nl.

(** The [test_connection] report of a failed attempt on [cid]. *)
Definition connection_failed (cid : json) (e : exc) : string :=
  "❌ Connection test failed for '" ++ py_str cid ++ "':" ++ nl ++ nl ++ "Error: " ++ ex_msg e ++ nl.

(** A task of [get_dag_tasks] with a [task_id] and a list of string
    downstream ids, or none. *)
Definition task_downstream (kvs : list (string * json)) : list string :=
  match assoc "downstream_task_ids" kvs with
  | Some (JList l) => flat_map (fun x => match x with JStr s => [s] | _ => [] end) l
  | _ => []
  end.

Definition well_formed_task (task : json) : Prop :=
  exists kvs id, task = JObj kvs /\ assoc "task_id" kvs = Some id
    /\ (assoc "downstream_task_ids" kvs = None
        \/ exists l, assoc "downstream_task_ids" kvs = Some (JList l) /\ Forall (fun x => exists s, x = JStr s) l).

(** One block of the [get_dag_tasks] summary. *)
Definition task_block (task : json) : string :=
  match task with
  | JObj kvs => "- **" ++ py_str (field_or_na "task_id" kvs) ++ "**" ++ nl
                ++ "  - Type: " ++ py_str (field_or_na "operator_name" kvs) ++ nl
                ++ "  - Downstream: " ++ str_join ", " (task_downstream kvs) ++ nl ++ nl
  | _ => ""
  end.

(** One line, and one DAG block, of the [get_dag_stats] summary. *)
Definition stat_line (st : json) : string :=
  match st with
  | JObj kvs => "  - " ++ py_str (field_or_na "state" kvs) ++ ": " ++ py_str (field_or_na "count" kvs) ++ nl
  | _ => ""
  end.

Definition stat_entries (kvs : list (string * json)) : list json :=
  match assoc "stats" kvs with Some (JList l) => l | _ => [] end.

Definition stat_block (d : json) : string :=
  match d with
  | JObj kvs => "**" ++ py_str (field_or_na "dag_id" kvs) ++ "**:" ++ nl
                ++ concat_strs (map stat_line (stat_entries kvs)) ++ nl
  | _ => ""
  end.

Definition well_formed_dag_stat (d : json) : Prop :=
  exists kvs id, d = JObj kvs /\ assoc "dag_id" kvs = Some id
    /\ (assoc "stats" kvs = None \/ exists l, assoc "stats" kvs = Some (JList l))
    /\ Forall (fun st => exists skvs s c, st = JObj skvs /\ assoc "state" skvs = Some s
                           /\ assoc "count" skvs = Some c) (stat_entries kvs).

(** An exception other than a [ValueError]. *)
Definition not_value_error (e : exc) : Prop := ex_kind e <> ValueError.

(** The string keys a tool's schema lists as required, in order. *)
Definition tool_required (name : string) : list string :=
  match find (fun t => String.eqb (tool_name t) name) list_tools with
  | Some t => flat_map (fun v => match v with JStr k => [k] | _ => [] end) (schema_required t)
  | None => []
  end.

(** The first of the keys [ks] absent from an arguments object. *)
Fixpoint first_missing (ks : list string) (kvs : list (string * json)) : option string :=
  match ks with
  | [] => None
  | k :: r => match assoc k kvs with None => Some k | Some _ => first_missing r kvs end
  end.


(** ** [get_auth_headers] and the [base64] encoding it uses *)

(** The alphabet of [base64.b64encode] (RFC 4648). *)
Definition b64_alphabet : string := "ABCDEFGHIJKLMNOPQRSTUVWXYZabcdefghijklmnopqrstuvwxyz0123456789+/".

Definition b64_char (i : Z) : ascii :=
  match String.get (Z.to_nat i) b64_alphabet with Some c => c | None => "="%char end.

(** A character of a model string is one byte of the UTF-8 text, so
    [str.encode()] and [bytes.decode()] leave it as it is. *)
Definition byte_of (c : ascii) : Z := Z.of_nat (nat_of_ascii c).

(** [base64.b64encode]: each group of three bytes becomes four characters
    of six bits each; a last group of one or two bytes is padded with [=]. *)
Fixpoint b64encode (s : string) : string :=
  match s with
  | String a (String b (String c r)) =>
      let n := Z.lor (Z.shiftl (byte_of a) 16) (Z.lor (Z.shiftl (byte_of b) 8) (byte_of c)) in
      String (b64_char (Z.shiftr n 18)) (String (b64_char (Z.land (Z.shiftr n 12) 63))
        (String (b64_char (Z.land (Z.shiftr n 6) 63)) (String (b64_char (Z.land n 63)) (b64encode r))))
  | String a (String b EmptyString) =>
      let n := Z.lor (Z.shiftl (byte_of a) 16) (Z.shiftl (byte_of b) 8) in
      String (b64_char (Z.shiftr n 18)) (String (b64_char (Z.land (Z.shiftr n 12) 63))
        (String (b64_char (Z.land (Z.shiftr n 6) 63)) "="))
  | String a EmptyString =>
      let n := Z.shiftl (byte_of a) 16 in
      String (b64_char (Z.shiftr n 18)) (String (b64_char (Z.land (Z.shiftr n 12) 63)) "==")
  | EmptyString => EmptyString
  end.

(** [get_auth_headers], with the configuration [AIRFLOW_JWT_TOKEN]
    ([os.getenv], so possibly [None]), [AIRFLOW_USERNAME] and
    [AIRFLOW_PASSWORD] as arguments; the [dict] in insertion order. *)
Definition get_auth_headers (AIRFLOW_JWT_TOKEN : option string) (AIRFLOW_USERNAME AIRFLOW_PASSWORD : string)
  : list (string * string) :=
  let basic :=
    let credentials := AIRFLOW_USERNAME ++ ":" ++ AIRFLOW_PASSWORD in
    let encoded := b64encode credentials in
    [("Authorization", "Basic " ++ encoded); ("Content-Type", "application/json")] in
  match AIRFLOW_JWT_TOKEN with
  | Some token =>
      if String.eqb token "" then basic
      else [("Authorization", "Bearer " ++ token); ("Content-Type", "application/json")]
  | None => basic
  end.

(** The inverse of [b64encode] on canonical encodings, as
    [base64.b64decode] computes it: each group of four characters gives
    back three bytes, fewer before padding. *)
Fixpoint b64_find (c : ascii) (s : string) (i : Z) : option Z :=
  match s with
  | EmptyString => None
  | String d r => if Ascii.eqb c d then Some i else b64_find c r (i + 1)%Z
  end.

Definition b64_index (c : ascii) : option Z := b64_find c b64_alphabet 0.

Definition byte_char (z : Z) : ascii := ascii_of_nat (Z.to_nat z).

Fixpoint b64decode (s : string) : option string :=
  match s with
  | EmptyString => Some EmptyString
  | String c1 (String c2 (String c3 (String c4 r))) =>
      match b64_index c1, b64_index c2 with
      | Some i1, Some i2 =>
          let o1 := byte_char (i1 * 4 + i2 / 16)%Z in
          if Ascii.eqb c3 "=" then
            if (Ascii.eqb c4 "=" && String.eqb r "")%bool then Some (String o1 EmptyString) else None
          else
            match b64_index c3 with
            | Some i3 =>
                let o2 := byte_char ((i2 mod 16) * 16 + i3 / 4)%Z in
                if Ascii.eqb c4 "=" then
                  if String.eqb r "" then Some (String o1 (String o2 EmptyString)) else None
                else
                  match b64_index c4 with
                  | Some i4 =>
                      match b64decode r with
                      | Some rest => Some (String o1 (String o2 (String (byte_char ((i3 mod 4) * 64 + i4)%Z) rest)))
                      | None => None
                      end
                  | None => None
                  end
            | None => None
            end
      | _, _ => None
      end
  | _ => None
  end.

(** * Properties *)

(** ** Strings *)

Lemma str_app_assoc (a b c : string) : (a ++ b) ++ c = a ++ (b ++ c).
Proof. induction a as [|x a IH]; simpl; [reflexivity | now rewrite IH]. Qed.

Lemma str_app_nil_r (a : string) : a ++ "" = a.
Proof. induction a as [|x a IH]; simpl; [reflexivity | now rewrite IH]. Qed.

Lemma is_prefix_app (p s : string) : is_prefix p (p ++ s) = true.
Proof.
  induction p as [|x p IH]; simpl.
  - destruct s; reflexivity.
  - rewrite Ascii.eqb_refl, IH. reflexivity.
Qed.

Lemma contains_prefix (n s : string) : contains n (n ++ s) = true.
Proof.
  destruct n as [|x n]; simpl.
  - destruct s; reflexivity.
  - rewrite Ascii.eqb_refl, is_prefix_app. reflexivity.
Qed.

Lemma contains_app_r (n a b : string) : contains n b = true -> contains n (a ++ b) = true.
Proof.
  intros H; induction a as [|x a IH]; simpl; [exact H|].
  rewrite IH, orb_true_r. reflexivity.
Qed.

Lemma is_prefix_app_l (p a b : string) : is_prefix p a = true -> is_prefix p (a ++ b) = true.
Proof.
  revert a; induction p as [|x p IH]; intros a H; simpl; [destruct (a ++ b); reflexivity|].
  destruct a as [|y a]; simpl in *; [discriminate|].
  apply andb_prop in H as [H1 H2]. rewrite H1, (IH a H2). reflexivity.
Qed.

Lemma contains_app_l (n a b : string) : contains n a = true -> contains n (a ++ b) = true.
Proof.
  intros H; induction a as [|x a IH]; simpl in *.
  - destruct n; [destruct b; reflexivity | discriminate].
  - apply orb_prop in H as [H|H].
    + pose proof (is_prefix_app_l n (String x a) b H) as H'. simpl in H'.
      rewrite H'. reflexivity.
    + rewrite (IH H), orb_true_r. reflexivity.
Qed.

Lemma contains_starts (n a b : string) : is_prefix n a = true -> contains n (a ++ b) = true.
Proof.
  intros H. pose proof (is_prefix_app_l n a b H) as H'.
  destruct (a ++ b); simpl; rewrite H'; [reflexivity|].
  reflexivity.
Qed.

Lemma contains_mid (n a b : string) : contains n (a ++ n ++ b) = true.
Proof. apply contains_app_r, contains_prefix. Qed.

Lemma is_prefix_refl (s : string) : is_prefix s s = true.
Proof. rewrite <- (str_app_nil_r s) at 2. apply is_prefix_app. Qed.

Lemma is_prefix_app_cancel (x p s : string) : is_prefix (x ++ p) (x ++ s) = is_prefix p s.
Proof. induction x as [|c x IH]; simpl; [reflexivity|]. rewrite Ascii.eqb_refl, IH. reflexivity. Qed.

Lemma contains_is_prefix (n h : string) : is_prefix n h = true -> contains n h = true.
Proof. intros H; destruct h; simpl; rewrite H; reflexivity. Qed.

Ltac prefix_solve :=
  first [ apply is_prefix_refl
        | apply is_prefix_app
        | rewrite is_prefix_app_cancel; prefix_solve ].

(** A needle found in a concatenation: a closed suffix, or a suffix that
    begins with the needle's pieces. *)
Ltac solve_contains :=
  first [ reflexivity
        | apply contains_is_prefix; prefix_solve
        | apply contains_app_r; solve_contains ].


(** ** Every run of [call_tool] returns one text. *)


Lemma single_ret (s : string) : single_text (ret (text_result s)).
Proof. intros tr; simpl; eauto. Qed.

Lemma single_raise (e : exc) : single_text (raise e).
Proof. intros tr; exact I. Qed.

Lemma single_bind {A} (m : M A) (k : A -> M (list TextContent)) :
  (forall a, single_text (k a)) -> single_text (bind m k).
Proof.
  intros Hk tr; unfold bind.
  destruct (m tr) as [[a|e] tr']; [apply Hk | exact I].
Qed.

Lemma single_try (m : M (list TextContent)) (h : exc -> M (list TextContent)) :
  single_text m -> (forall e, single_text (h e)) -> single_text (try_except m h).
Proof.
  intros Hm Hh tr; unfold try_except.
  specialize (Hm tr); destruct (m tr) as [[a|e] tr']; [exact Hm | apply Hh].
Qed.

Ltac single_tac :=
  repeat (cbv beta zeta;
          match goal with
          | |- single_text (bind _ _) => apply single_bind; intro
          | |- single_text (try_except _ _) => apply single_try; [|intro]
          | |- single_text (ret (text_result _)) => apply single_ret
          | |- single_text (raise _) => apply single_raise
          | |- single_text (if ?b then _ else _) => destruct b
          end).

(** ** [make_api_request] *)

Lemma api_trace api_url up method endpoint params body tr :
  snd (make_api_request api_url up method endpoint params body tr)
  = app tr [mkRequest method (api_url ++ "/" ++ lstrip_slash endpoint) params body].
Proof.
  unfold make_api_request; cbv zeta.
  destruct (up tr _) as [m|m|st tx [j|jm]]; try reflexivity;
  destruct (Z.leb 200 st && Z.ltb st 300)%bool; reflexivity.
Qed.

Lemma api_ok api_url up method endpoint params body tr status text j :
  up tr (mkRequest method (api_url ++ "/" ++ lstrip_slash endpoint) params body)
    = Response status text (inl j) ->
  (200 <= status < 300)%Z ->
  make_api_request api_url up method endpoint params body tr
  = (Ok j, app tr [mkRequest method (api_url ++ "/" ++ lstrip_slash endpoint) params body]).
Proof.
  intros Hup Hst. unfold make_api_request; cbv zeta. rewrite Hup.
  replace (Z.leb 200 status && Z.ltb status 300)%bool with true
    by (symmetry; apply andb_true_intro; split; [apply Z.leb_le | apply Z.ltb_lt]; lia).
  reflexivity.
Qed.

Lemma lstrip_task_instance_endpoint d r t :
  lstrip_slash (task_instance_endpoint d r t) = task_instance_endpoint d r t.
Proof. reflexivity. Qed.

(** ** Computations that send no request *)

Lemma no_request_ret {A} (a : A) : no_request (ret a).
Proof. intros tr; reflexivity. Qed.

Lemma no_request_raise {A} (e : exc) : no_request (@raise A e).
Proof. intros tr; reflexivity. Qed.

Lemma no_request_lift {A} (r : res A) : no_request (lift r).
Proof. destruct r; intros tr; reflexivity. Qed.

Lemma no_request_bind {A B} (m : M A) (k : A -> M B) :
  no_request m -> (forall a, no_request (k a)) -> no_request (bind m k).
Proof.
  intros Hm Hk tr; unfold bind; specialize (Hm tr).
  destruct (m tr) as [[a|e] tr1]; simpl in *; subst; [apply Hk | reflexivity].
Qed.

Lemma no_request_for (xs : list json) (acc : string) (f : string -> json -> M string) :
  (forall a x, no_request (f a x)) -> no_request (py_for xs acc f).
Proof.
  revert acc; induction xs as [|x xs IH]; intros acc Hf; simpl.
  - apply no_request_ret.
  - apply no_request_bind; [apply Hf | intro; apply IH, Hf].
Qed.

Ltac no_request_tac :=
  repeat (cbv beta zeta;
          match goal with
          | |- no_request (bind (py_for _ _ _) _) =>
              apply no_request_bind; [apply no_request_for; intros|intro]
          | |- no_request (bind _ _) => apply no_request_bind; [apply no_request_lift|intro]
          | |- no_request (ret _) => apply no_request_ret
          | |- no_request (raise _) => apply no_request_raise
          | |- no_request (if ?b then _ else _) => destruct b
          end).

Lemma bind_api_trace {B} api_url up method endpoint params body (k : json -> M B) tr :
  (forall a, no_request (k a)) ->
  snd (bind (make_api_request api_url up method endpoint params body) k tr)
  = app tr [mkRequest method (api_url ++ "/" ++ lstrip_slash endpoint) params body].
Proof.
  intros Hk. rewrite <- (api_trace api_url up method endpoint params body tr).
  unfold bind. destruct (make_api_request api_url up method endpoint params body tr) as [[a|e] tr1].
  - apply Hk.
  - reflexivity.
Qed.

Lemma try_except_handler_trace {A} (m : M A) (f : exc -> A) tr :
  snd (try_except m (fun e => ret (f e)) tr) = snd (m tr).
Proof. unfold try_except. destruct (m tr) as [[a|e] tr1]; reflexivity. Qed.

Lemma py_get_obj kvs k d :
  py_get (JObj kvs) k d = Ok (match assoc k kvs with Some x => x | None => d end).
Proof. simpl. destruct (assoc k kvs); reflexivity. Qed.

Lemma bind_lift_ok {A B} (a : A) (k : A -> M B) : bind (lift (Ok a)) k = k a.
Proof. reflexivity. Qed.

Lemma py_for_collect (xs : list json) (acc : string) (f : string -> json -> M string) (tr : trace)
  (needle : json -> string) :
  (forall x, In x xs -> forall acc, exists piece,
     f acc x tr = (Ok (acc ++ piece), tr) /\ contains (needle x) piece = true) ->
  exists out, py_for xs acc f tr = (Ok (acc ++ out), tr)
    /\ forall x, In x xs -> contains (needle x) out = true.
Proof.
  revert acc; induction xs as [|x xs IH]; intros acc Hf; simpl.
  - exists "". split; [now rewrite str_app_nil_r | intros _ []].
  - destruct (Hf x (or_introl eq_refl) acc) as [piece [Hx Hc]].
    destruct (IH (acc ++ piece)) as [out [Ho Hin]].
    { intros y Hy; apply Hf; right; exact Hy. }
    exists (piece ++ out). unfold bind. rewrite Hx, Ho, str_app_assoc. split; [reflexivity|].
    intros y [<-|Hy]; [apply contains_app_l; exact Hc | apply contains_app_r, Hin, Hy].
Qed.

Lemma py_index_obj kvs k x : assoc k kvs = Some x -> py_index (JObj kvs) k = Ok x.
Proof. intros H; simpl; rewrite H; reflexivity. Qed.

Lemma py_len_list l : py_len (JList l) = Ok (Z.of_nat (length l)).
Proof. reflexivity. Qed.

Lemma py_iter_list l : py_iter (JList l) = Ok l.
Proof. reflexivity. Qed.

Lemma dag_run_state_emoji_spec (x : string) :
  lookup_str x dag_run_state_emoji "❓" = spec_run_marker x.
Proof.
  unfold lookup_str, dag_run_state_emoji, spec_run_marker.
  destruct (String.eqb x "success"), (String.eqb x "failed"), (String.eqb x "running"),
    (String.eqb x "queued"); reflexivity.
Qed.

Lemma in_state_param_iff (limit state v : json) :
  In ("state", v) (app [("limit", limit)] (if py_truthy state then [("state", state)] else []))
  <-> v = state /\ py_truthy state = true.
Proof.
  destruct (py_truthy state); simpl; split.
  - intros [H|[H|[]]]; [discriminate | injection H as ->; auto].
  - intros [-> _]; right; left; reflexivity.
  - intros [H|[]]; discriminate.
  - intros [_ H]; discriminate.
Qed.

Lemma contains_empty (s : string) : contains "" s = true.
Proof. destruct s; reflexivity. Qed.

Lemma bind_lift_err {A B} (e : exc) (k : A -> M B) : bind (lift (Err e)) k = raise e.
Proof. reflexivity. Qed.

Lemma py_for_err (xs : list json) (acc : string) (f : string -> json -> M string) (tr : trace) (x : json) :
  In x xs -> (forall a y, no_request (f a y)) -> (forall a, exists e, f a x tr = (Err e, tr)) ->
  exists e, py_for xs acc f tr = (Err e, tr).
Proof.
  revert acc; induction xs as [|y xs IH]; intros acc Hin Hnr Hx; [destruct Hin|].
  destruct Hin as [->|Hin].
  - destruct (Hx acc) as [e He]. exists e. simpl. unfold bind. rewrite He. reflexivity.
  - simpl. unfold bind. specialize (Hnr acc y tr) as Hy.
    destruct (f acc y tr) as [[a|e] tr1] eqn:E; simpl in Hy; subst tr1.
    + apply IH; assumption.
    + exists e; reflexivity.
Qed.

Section Claims.

Variable AIRFLOW_API_URL AIRFLOW_BASE_URL : string.
Variable upstream : trace -> request -> http_outcome.

Local Abbreviation api := (make_api_request AIRFLOW_API_URL upstream).
Local Abbreviation body := (call_tool_body AIRFLOW_API_URL AIRFLOW_BASE_URL upstream).
Local Abbreviation invoke := (call_tool AIRFLOW_API_URL AIRFLOW_BASE_URL upstream).

Lemma call_tool_body_single (name : string) (arguments : json) :
  single_text (body name arguments).
Proof.
  unfold call_tool_body.
  repeat match goal with |- single_text (if ?b then _ else _) => destruct b end;
  try apply single_raise;
  unfold call_get_dags, call_get_dag_tasks, call_trigger_dag_run, call_clear_dag_run,
    call_set_dag_state, call_get_dag_runs, call_get_task_instances, call_get_dag_stats,
    call_get_task_logs, task_logs_primary, task_logs_fallback, call_get_import_errors,
    call_get_connections, call_get_connection, call_test_connection, call_check_health;
  single_tac.
Qed.

(** Claim C1: for every tool name and argument value, [call_tool] returns
    exactly one text and never raises; when the [try] block raised [e], that
    text is the failure message: it begins with the failure marker and holds
    [str(e)].  In particular [get_dag_tasks] called without [dag_id] yields
    the error text of the [KeyError], without any request. *)
Theorem call_tool_single_text_never_raises (name : string) (arguments : json) (tr : trace) :
  (exists s tr', invoke name arguments tr = (Ok (text_result s), tr')
     /\ (forall e, fst (body name arguments tr) = Err e ->
           s = error_text name e /\ is_prefix "❌" s = true /\ contains (ex_msg e) s = true))
  /\ invoke "get_dag_tasks" (JObj []) tr
     = (Ok (text_result (error_text "get_dag_tasks" (mkExc KeyError "'dag_id'"))), tr).
Proof.
  split; [|reflexivity].
  unfold call_tool, try_except.
  pose proof (call_tool_body_single name arguments tr) as Hs.
  destruct (body name arguments tr) as [[r|e] tr'] eqn:E; simpl in Hs.
  - destruct Hs as [s ->]. exists s, tr'. split; [reflexivity|].
    intros e H; discriminate.
  - exists (error_text name e), tr'. split; [reflexivity|].
    intros e' H; injection H as <-. split; [reflexivity|].
    split; [reflexivity|]. unfold error_text.
    repeat apply contains_app_r. rewrite <- (str_app_nil_r (ex_msg e)) at 2.
    apply contains_prefix.
Qed.

(** Claim C5: a name outside the fourteen registered by [list_tools] makes
    [call_tool] raise the [Unknown tool] [ValueError] before any request: the
    trace is unchanged and the single text returned is the failure message,
    which holds "Unknown tool". *)
Theorem call_tool_unknown_name (name : string) (arguments : json) (tr : trace)
  (Hname : ~ In name (map tool_name list_tools)) :
  invoke name arguments tr
    = (Ok (text_result ("❌ Error executing '" ++ name ++ "':" ++ nl ++ nl ++ "Unknown tool: " ++ name)), tr)
  /\ contains "Unknown tool"
       ("❌ Error executing '" ++ name ++ "':" ++ nl ++ nl ++ "Unknown tool: " ++ name) = true.
Proof.
  split.
  - simpl in Hname. unfold call_tool, call_tool_body, try_except.
    repeat match goal with
           | |- context [String.eqb name ?c] =>
               destruct (String.eqb_spec name c) as [->|_]; [exfalso; apply Hname; tauto|]
           end.
    reflexivity.
  - do 5 apply contains_app_r. apply contains_starts. reflexivity.
Qed.

Lemma body_get_task_logs arguments :
  body "get_task_logs" arguments = call_get_task_logs AIRFLOW_API_URL AIRFLOW_BASE_URL upstream arguments.
Proof. reflexivity. Qed.

(** Claim C2: when the logs request of [get_task_logs] (or the rendering of
    its answer) raises [e], the handler sends the task-instance request; if
    that request yields a task-instance object, the single text returned holds
    its state, try number, start and end dates (or "N/A"), the grid-view URL
    of the web UI and [str(e)]; if that request raises [e'], the exception
    reaches the dispatcher, which returns the failure text of [e']. *)
Theorem task_logs_fallback_after_primary_failure (arguments : json) (tr tr1 : trace)
  (dag_id dag_run_id task_id try_number : json) (e : exc)
  (Hd : py_index arguments "dag_id" = Ok dag_id)
  (Hr : py_index arguments "dag_run_id" = Ok dag_run_id)
  (Ht : py_index arguments "task_id" = Ok task_id)
  (Hn : py_get arguments "try_number" (JInt 1) = Ok try_number)
  (Hprim : task_logs_primary AIRFLOW_API_URL upstream
             (task_logs_endpoint dag_id dag_run_id task_id try_number) task_id try_number tr
           = (Err e, tr1)) :
  let fb := mkRequest "GET" (AIRFLOW_API_URL ++ "/" ++ task_instance_endpoint dag_id dag_run_id task_id) None None in
  (forall status text kvs,
     upstream tr1 fb = Response status text (inl (JObj kvs)) -> (200 <= status < 300)%Z ->
     exists s, invoke "get_task_logs" arguments tr = (Ok (text_result s), app tr1 [fb])
       /\ contains ("- State: " ++ py_str (field_or_na "state" kvs)) s = true
       /\ contains ("- Try Number: " ++ py_str (field_or_na "try_number" kvs)) s = true
       /\ contains ("- Start Date: " ++ py_str (field_or_na "start_date" kvs)) s = true
       /\ contains ("- End Date: " ++ py_str (field_or_na "end_date" kvs)) s = true
       /\ contains (AIRFLOW_BASE_URL ++ "/dags/" ++ py_str dag_id ++ "/grid?dag_run_id=" ++ py_str dag_run_id
                    ++ "&task_id=" ++ py_str task_id) s = true
       /\ contains ("Error: " ++ ex_msg e) s = true)
  /\ (forall e', fst (api "GET" (task_instance_endpoint dag_id dag_run_id task_id) None None tr1) = Err e' ->
       invoke "get_task_logs" arguments tr
         = (Ok (text_result (error_text "get_task_logs" e')), app tr1 [fb])).
Proof.
  intros fb.
  assert (Hrun : invoke "get_task_logs" arguments tr
                 = try_except (task_logs_fallback AIRFLOW_API_URL AIRFLOW_BASE_URL upstream dag_id dag_run_id task_id e)
                     (fun e => ret (text_result (error_text "get_task_logs" e))) tr1).
  { unfold call_tool. rewrite body_get_task_logs. unfold call_get_task_logs, try_except at 1, bind, lift.
    rewrite Hd, Hr, Ht, Hn. unfold ret at 1 2 3 4. cbv beta iota zeta. unfold try_except at 1. rewrite Hprim. reflexivity. }
  rewrite Hrun. clear Hrun.
  split.
  - intros status text kvs Hup Hst.
    unfold task_logs_fallback, try_except, bind at 1.
    fold (task_instance_endpoint dag_id dag_run_id task_id).
    rewrite (api_ok AIRFLOW_API_URL upstream "GET" (task_instance_endpoint dag_id dag_run_id task_id) None None
               tr1 status text (JObj kvs)); [|rewrite lstrip_task_instance_endpoint; exact Hup | exact Hst].
    rewrite lstrip_task_instance_endpoint. fold fb.
    unfold bind, lift, py_get, field_or_na.
    destruct (assoc "state" kvs), (assoc "try_number" kvs), (assoc "start_date" kvs), (assoc "end_date" kvs);
      cbv beta iota zeta; unfold ret;
      eexists; (split; [reflexivity|]); rewrite ?str_app_assoc;
      repeat split; solve_contains.
  - intros e' Hf.
    unfold task_logs_fallback, try_except, bind at 1.
    fold (task_instance_endpoint dag_id dag_run_id task_id).
    destruct (make_api_request AIRFLOW_API_URL upstream "GET" (task_instance_endpoint dag_id dag_run_id task_id) None None tr1)
      as [[j|x] tr2] eqn:E; simpl in Hf; [discriminate|].
    injection Hf as ->.
    pose proof (api_trace AIRFLOW_API_URL upstream "GET" (task_instance_endpoint dag_id dag_run_id task_id)
                  None None tr1) as Htr.
    rewrite E, lstrip_task_instance_endpoint in Htr. simpl in Htr. subst tr2.
    reflexivity.
Qed.

Lemma in_flag_param_iff (limit v : json) (k : string) (b : bool) :
  k <> "limit" ->
  In (k, v) (app [("limit", limit)] (if b then [(k, v)] else [])) <-> b = true.
Proof.
  intros Hk. destruct b; simpl; split; intros H.
  - reflexivity.
  - right; left; reflexivity.
  - destruct H as [H|[]]. injection H as H _. congruence.
  - discriminate.
Qed.

Lemma body_get_dags arguments :
  body "get_dags" arguments = call_get_dags AIRFLOW_API_URL upstream arguments.
Proof. reflexivity. Qed.

(** Claim C6: [get_dags] sends one request, [GET dags], whose query holds
    [limit] (the argument, else 100) and holds [only_active = "true"] exactly
    when the [only_active] argument is truthy (for a boolean: when it is
    [true]); on the answer [{"dags":[{"dag_id":"a","is_paused":true}]}] the
    text lists [a] as paused and never says active. *)
Theorem get_dags_params_and_paused_render (akvs : list (string * json)) (tr : trace) :
  let limit := match assoc "limit" akvs with Some v => v | None => JInt 100 end in
  let only_active := match assoc "only_active" akvs with Some v => v | None => JBool false end in
  (exists params,
     snd (invoke "get_dags" (JObj akvs) tr)
       = app tr [mkRequest "GET" (AIRFLOW_API_URL ++ "/dags") (Some params) None]
     /\ assoc "limit" params = Some limit
     /\ (In ("only_active", JStr "true") params <-> py_truthy only_active = true)
     /\ (forall b, only_active = JBool b -> (In ("only_active", JStr "true") params <-> b = true)))
  /\
  (exists s,
     fst (call_tool AIRFLOW_API_URL AIRFLOW_BASE_URL stub_one_paused_dag "get_dags" (JObj akvs) tr)
       = Ok (text_result s)
     /\ contains "**a**" s = true /\ contains "⏸️ Paused" s = true /\ contains "▶️ Active" s = false).
Proof.
  intros limit only_active. split.
  - exists (app [("limit", limit)] (if py_truthy only_active then [("only_active", JStr "true")] else [])).
    split; [|split; [|split]].
    + unfold call_tool. rewrite try_except_handler_trace, body_get_dags.
      unfold call_get_dags. rewrite !py_get_obj, !bind_lift_ok. cbv beta zeta.
      apply bind_api_trace. intros a. no_request_tac.
    + reflexivity.
    + apply in_flag_param_iff; discriminate.
    + intros b Hb. rewrite Hb. apply in_flag_param_iff; discriminate.
  - unfold call_tool, call_tool_body, call_get_dags.
    rewrite !py_get_obj, !bind_lift_ok. cbv beta zeta.
    eexists; split; [reflexivity|]. split; [|split]; reflexivity.
Qed.

Lemma body_get_dag_runs arguments :
  body "get_dag_runs" arguments = call_get_dag_runs AIRFLOW_API_URL upstream arguments.
Proof. reflexivity. Qed.

Ltac open_dag_runs Hd Hup Hst Hruns :=
  unfold call_tool, try_except; rewrite body_get_dag_runs; unfold call_get_dag_runs;
  rewrite (py_index_obj _ _ _ Hd), !py_get_obj, !bind_lift_ok; cbv beta zeta;
  unfold bind at 1; erewrite api_ok; [| apply Hup | exact Hst];
  rewrite py_get_obj, Hruns, !bind_lift_ok, py_len_list, bind_lift_ok, py_iter_list, bind_lift_ok.

(** On a 2xx answer whose runs are well formed, [get_dag_runs] returns its
    header followed by one block per run, each headed by [run_heading]. *)
Lemma get_dag_runs_render (akvs : list (string * json)) (tr : trace) (dag_id : json)
  (status : Z) (text : string) (rkvs : list (string * json)) (runs : list json)
  (Hd : assoc "dag_id" akvs = Some dag_id)
  (Hup : forall rq, upstream tr rq = Response status text (inl (JObj rkvs)))
  (Hst : (200 <= status < 300)%Z)
  (Hruns : assoc "dag_runs" rkvs = Some (JList runs))
  (Hwf : Forall well_formed_run runs) :
  exists out, fst (invoke "get_dag_runs" (JObj akvs) tr)
    = Ok (text_result (("DAG runs for '" ++ py_str dag_id ++ "' (" ++ z_to_dec (Z.of_nat (length runs))
                        ++ " runs):" ++ nl ++ nl) ++ out))
    /\ forall run, In run runs -> contains (run_heading run) out = true.
Proof.
  open_dag_runs Hd Hup Hst Hruns.
  edestruct (py_for_collect runs) as [out [Hout Hin]]; cycle 1.
  - unfold bind at 1. rewrite Hout. exists out. split; [reflexivity | exact Hin].
  - intros x Hx acc.
    rewrite Forall_forall in Hwf.
    destruct (Hwf x Hx) as [kvs [id [-> [Hid Hs]]]].
    unfold run_heading, run_state_text, field_or_na. rewrite Hid.
    rewrite py_get_obj, bind_lift_ok, (py_index_obj _ _ _ Hid).
    destruct Hs as [Hs|[s0 Hs]]; rewrite Hs; cbn [py_lower]; rewrite !bind_lift_ok;
      rewrite dag_run_state_emoji_spec; rewrite py_get_obj, bind_lift_ok; cbv beta zeta;
      rewrite !py_get_obj, !bind_lift_ok;
      eexists; (split; [unfold ret; rewrite !str_app_assoc; reflexivity|]);
      apply contains_is_prefix; repeat rewrite str_app_assoc; prefix_solve.
Qed.

(** A run whose [state] is [null] makes [get_dag_runs] return the
    dispatcher's error text; when it is the first run, the error is the
    [AttributeError] of [None.lower]. *)
Lemma get_dag_runs_null_state (akvs : list (string * json)) (tr : trace) (dag_id : json)
  (status : Z) (text : string) (rkvs : list (string * json)) (runs : list json)
  (Hd : assoc "dag_id" akvs = Some dag_id)
  (Hup : forall rq, upstream tr rq = Response status text (inl (JObj rkvs)))
  (Hst : (200 <= status < 300)%Z)
  (Hruns : assoc "dag_runs" rkvs = Some (JList runs)) :
  (forall kvs, In (JObj kvs) runs -> assoc "state" kvs = Some JNull ->
     exists e, fst (invoke "get_dag_runs" (JObj akvs) tr) = Ok (text_result (error_text "get_dag_runs" e)))
  /\ (forall kvs rest, runs = JObj kvs :: rest -> assoc "state" kvs = Some JNull ->
     fst (invoke "get_dag_runs" (JObj akvs) tr)
       = Ok (text_result (error_text "get_dag_runs" (attr_error JNull "lower")))).
Proof.
  split.
  - intros kvs Hin Hs. open_dag_runs Hd Hup Hst Hruns.
    edestruct (fun acc f tr0 => py_for_err runs acc f tr0 (JObj kvs) Hin) as [e He]; cycle 2.
    + unfold bind at 1. rewrite He. exists e. reflexivity.
    + intros a y. no_request_tac.
    + intros a. cbv beta. rewrite py_get_obj, Hs, bind_lift_ok. cbn [py_lower]. rewrite bind_lift_err.
      eexists; reflexivity.
  - intros kvs rest -> Hs. open_dag_runs Hd Hup Hst Hruns.
    cbn [py_for]. unfold bind at 1 2. rewrite py_get_obj, Hs, bind_lift_ok. cbn [py_lower].
    rewrite bind_lift_err. reflexivity.
Qed.

(** Claim C7: [get_dag_runs] sends [GET dags/{dag_id}/dagRuns] with [limit]
    (the argument, else 25) and with [state] only when a (truthy) state is
    given; on an answer whose runs are objects with an id and a string or
    absent state, every run is rendered under the marker of its lower-cased
    state: the code's table gives success, failed, running and queued their
    own, pairwise distinct, markers and every other string the generic one. *)
Theorem get_dag_runs_params_and_markers (akvs : list (string * json)) (tr : trace) (dag_id : json)
  (status : Z) (text : string) (rkvs : list (string * json)) (runs : list json)
  (Hd : assoc "dag_id" akvs = Some dag_id)
  (Hup : forall rq, upstream tr rq = Response status text (inl (JObj rkvs)))
  (Hst : (200 <= status < 300)%Z)
  (Hruns : assoc "dag_runs" rkvs = Some (JList runs))
  (Hwf : Forall well_formed_run runs) :
  let limit := match assoc "limit" akvs with Some v => v | None => JInt 25 end in
  let state := match assoc "state" akvs with Some v => v | None => JNull end in
  (exists params,
     snd (invoke "get_dag_runs" (JObj akvs) tr)
       = app tr [mkRequest "GET" (AIRFLOW_API_URL ++ "/dags/" ++ py_str dag_id ++ "/dagRuns") (Some params) None]
     /\ assoc "limit" params = Some limit
     /\ (forall v, In ("state", v) params <-> v = state /\ py_truthy state = true))
  /\ (exists s, fst (invoke "get_dag_runs" (JObj akvs) tr) = Ok (text_result s)
       /\ forall run, In run runs -> contains (run_heading run) s = true)
  /\ (forall x, lookup_str x dag_run_state_emoji "❓" = spec_run_marker x)
  /\ NoDup ["✅"; "❌"; "🔄"; "⏳"; "❓"].
Proof.
  intros limit state.
  assert (Hbody : forall tr0,
    call_get_dag_runs AIRFLOW_API_URL upstream (JObj akvs) tr0
    = bind (make_api_request AIRFLOW_API_URL upstream "GET" ("dags/" ++ py_str dag_id ++ "/dagRuns")
              (Some (app [("limit", limit)] (if py_truthy state then [("state", state)] else []))) None)
        (fun result =>
           dag_runs <- lift (py_get result "dag_runs" (JList [])) ;;
           n <- lift (py_len dag_runs) ;;
           xs <- lift (py_iter dag_runs) ;;
           summary <- py_for xs ("DAG runs for '" ++ py_str dag_id ++ "' (" ++ z_to_dec n ++ " runs):" ++ nl ++ nl)
             (fun summary run =>
              run_state <- lift (py_get run "state" (JStr "")) ;;
              lowered <- lift (py_lower run_state) ;;
              let state_emoji := lookup_str lowered dag_run_state_emoji "❓" in
              run_id <- lift (py_index run "dag_run_id") ;;
              let summary := summary ++ state_emoji ++ " **" ++ py_str run_id ++ "**" ++ nl in
              st <- lift (py_get run "state" (JStr "N/A")) ;;
              let summary := summary ++ "  - State: " ++ py_str st ++ nl in
              start <- lift (py_get run "start_date" (JStr "N/A")) ;;
              let summary := summary ++ "  - Start: " ++ py_str start ++ nl in
              end_date <- lift (py_get run "end_date" (JStr "N/A")) ;;
              ret (summary ++ "  - End: " ++ py_str end_date ++ nl ++ nl)) ;;
           ret (text_result summary)) tr0).
  { intros tr0. unfold call_get_dag_runs. rewrite (py_index_obj _ _ _ Hd), !py_get_obj, !bind_lift_ok.
    reflexivity. }
  split; [|split; [|split]].
  - eexists. split; [|split].
    + unfold call_tool. rewrite try_except_handler_trace, body_get_dag_runs, Hbody.
      apply bind_api_trace. intros a. no_request_tac.
    + reflexivity.
    + intros v. apply in_state_param_iff.
  - destruct (get_dag_runs_render akvs tr dag_id status text rkvs runs Hd Hup Hst Hruns Hwf) as [out [Hs Hin]].
    eexists. split; [exact Hs|]. intros run Hrun. apply contains_app_r, Hin, Hrun.
  - apply dag_run_state_emoji_spec.
  - repeat constructor; simpl; intuition discriminate.
Qed.

Lemma body_get_task_instances arguments :
  body "get_task_instances" arguments = call_get_task_instances AIRFLOW_API_URL upstream arguments.
Proof. reflexivity. Qed.

Ltac open_task_instances Hd Hr Hup Hst Hxs :=
  unfold call_tool, try_except; rewrite body_get_task_instances; unfold call_get_task_instances;
  rewrite (py_index_obj _ _ _ Hd), bind_lift_ok, (py_index_obj _ _ _ Hr), bind_lift_ok;
  unfold bind at 1; erewrite api_ok; [| apply Hup | exact Hst];
  rewrite py_get_obj, Hxs, bind_lift_ok, py_iter_list, bind_lift_ok.

(** On a 2xx answer whose task instances are well formed,
    [get_task_instances] returns its header followed by the entries. *)
Lemma get_task_instances_render (akvs : list (string * json)) (tr : trace) (dag_id run_id : json)
  (status : Z) (text : string) (rkvs : list (string * json)) (tis : list json)
  (Hd : assoc "dag_id" akvs = Some dag_id) (Hr : assoc "dag_run_id" akvs = Some run_id)
  (Hup : forall rq, upstream tr rq = Response status text (inl (JObj rkvs)))
  (Hst : (200 <= status < 300)%Z)
  (Hxs : assoc "task_instances" rkvs = Some (JList tis))
  (Hwf : Forall well_formed_task_instance tis) :
  exists out, fst (invoke "get_task_instances" (JObj akvs) tr)
    = Ok (text_result (("Task instances for '" ++ py_str dag_id ++ "' run '" ++ py_str run_id ++ "':"
                        ++ nl ++ nl) ++ out)).
Proof.
  open_task_instances Hd Hr Hup Hst Hxs.
  edestruct (fun acc f tr0 => py_for_collect tis acc f tr0 (fun _ => "")) as [out [Hout _]]; cycle 1.
  - unfold bind at 1. rewrite Hout. exists out. reflexivity.
  - intros x Hx acc.
    rewrite Forall_forall in Hwf.
    destruct (Hwf x Hx) as [kvs [id [-> [Hid Hs]]]].
    rewrite py_get_obj, bind_lift_ok.
    destruct Hs as [Hs|[s0 Hs]]; rewrite Hs; cbn [py_lower]; rewrite !bind_lift_ok;
      rewrite (py_index_obj _ _ _ Hid), bind_lift_ok; cbv beta zeta;
      rewrite !py_get_obj, !bind_lift_ok;
      eexists; (split; [unfold ret; repeat rewrite str_app_assoc; reflexivity|]);
      apply contains_empty.
Qed.

(** A task instance whose [state] is [null] makes [get_task_instances]
    return the dispatcher's error text; when it is the first entry, the
    error is the [AttributeError] of [None.lower]. *)
Lemma get_task_instances_null_state (akvs : list (string * json)) (tr : trace) (dag_id run_id : json)
  (status : Z) (text : string) (rkvs : list (string * json)) (tis : list json)
  (Hd : assoc "dag_id" akvs = Some dag_id) (Hr : assoc "dag_run_id" akvs = Some run_id)
  (Hup : forall rq, upstream tr rq = Response status text (inl (JObj rkvs)))
  (Hst : (200 <= status < 300)%Z)
  (Hxs : assoc "task_instances" rkvs = Some (JList tis)) :
  (forall kvs, In (JObj kvs) tis -> assoc "state" kvs = Some JNull ->
     exists e, fst (invoke "get_task_instances" (JObj akvs) tr)
       = Ok (text_result (error_text "get_task_instances" e)))
  /\ (forall kvs rest, tis = JObj kvs :: rest -> assoc "state" kvs = Some JNull ->
     fst (invoke "get_task_instances" (JObj akvs) tr)
       = Ok (text_result (error_text "get_task_instances" (attr_error JNull "lower")))).
Proof.
  split.
  - intros kvs Hin Hs. open_task_instances Hd Hr Hup Hst Hxs.
    edestruct (fun acc f tr0 => py_for_err tis acc f tr0 (JObj kvs) Hin) as [e He]; cycle 2.
    + unfold bind at 1. rewrite He. exists e. reflexivity.
    + intros a y. no_request_tac.
    + intros a. cbv beta. rewrite py_get_obj, Hs, bind_lift_ok. cbn [py_lower]. rewrite bind_lift_err.
      eexists; reflexivity.
  - intros kvs rest -> Hs. open_task_instances Hd Hr Hup Hst Hxs.
    cbn [py_for]. unfold bind at 1 2. rewrite py_get_obj, Hs, bind_lift_ok. cbn [py_lower].
    rewrite bind_lift_err. reflexivity.
Qed.

(** Claim C10: in [get_dag_runs] and [get_task_instances] the state of
    every entry is read with [.get("state", "")] and lower-cased, which is
    total only over an absent or string state: an entry whose [state] is
    [null] turns the whole invocation into the dispatcher's error text
    (for a first such entry, the [AttributeError] of [None.lower]), whereas
    entries with an absent or string state are all rendered in a success
    summary. *)
Theorem null_state_entry_fails (akvs : list (string * json)) (tr : trace) (dag_id : json)
  (status : Z) (text : string) (rkvs : list (string * json)) (xs : list json)
  (Hd : assoc "dag_id" akvs = Some dag_id)
  (Hup : forall rq, upstream tr rq = Response status text (inl (JObj rkvs)))
  (Hst : (200 <= status < 300)%Z) :
  let none_lower := mkExc AttributeError "'NoneType' object has no attribute 'lower'" in
  (assoc "dag_runs" rkvs = Some (JList xs) ->
     (forall kvs, In (JObj kvs) xs -> assoc "state" kvs = Some JNull ->
        exists e, fst (invoke "get_dag_runs" (JObj akvs) tr) = Ok (text_result (error_text "get_dag_runs" e)))
     /\ (forall kvs rest, xs = JObj kvs :: rest -> assoc "state" kvs = Some JNull ->
        fst (invoke "get_dag_runs" (JObj akvs) tr) = Ok (text_result (error_text "get_dag_runs" none_lower)))
     /\ (Forall well_formed_run xs ->
        exists s, fst (invoke "get_dag_runs" (JObj akvs) tr) = Ok (text_result s)
          /\ forall e, s <> error_text "get_dag_runs" e))
  /\ (forall run_id, assoc "dag_run_id" akvs = Some run_id ->
      assoc "task_instances" rkvs = Some (JList xs) ->
     (forall kvs, In (JObj kvs) xs -> assoc "state" kvs = Some JNull ->
        exists e, fst (invoke "get_task_instances" (JObj akvs) tr)
          = Ok (text_result (error_text "get_task_instances" e)))
     /\ (forall kvs rest, xs = JObj kvs :: rest -> assoc "state" kvs = Some JNull ->
        fst (invoke "get_task_instances" (JObj akvs) tr)
          = Ok (text_result (error_text "get_task_instances" none_lower)))
     /\ (Forall well_formed_task_instance xs ->
        exists s, fst (invoke "get_task_instances" (JObj akvs) tr) = Ok (text_result s)
          /\ forall e, s <> error_text "get_task_instances" e)).
Proof.
  intros none_lower. split.
  - intros Hxs.
    destruct (get_dag_runs_null_state akvs tr dag_id status text rkvs xs Hd Hup Hst Hxs) as [H1 H2].
    split; [exact H1 | split; [exact H2 |]].
    intros Hwf.
    destruct (get_dag_runs_render akvs tr dag_id status text rkvs xs Hd Hup Hst Hxs Hwf) as [out [Hs _]].
    eexists; split; [exact Hs|].
    intros e H. apply (f_equal (String.get 0)) in H. simpl in H. discriminate.
  - intros run_id Hr Hxs.
    destruct (get_task_instances_null_state akvs tr dag_id run_id status text rkvs xs Hd Hr Hup Hst Hxs)
      as [H1 H2].
    split; [exact H1 | split; [exact H2 |]].
    intros Hwf.
    destruct (get_task_instances_render akvs tr dag_id run_id status text rkvs xs Hd Hr Hup Hst Hxs Hwf)
      as [out Hs].
    eexists; split; [exact Hs|].
    intros e H. apply (f_equal (String.get 0)) in H. simpl in H. discriminate.
Qed.

Lemma body_check_health arguments :
  body "check_health" arguments = call_check_health AIRFLOW_API_URL upstream arguments.
Proof. reflexivity. Qed.

(** Claim C9: on any 2xx health answer whose [metadatabase] and
    [scheduler] entries are objects or absent, [check_health] returns the
    report below: an absent component counts as an empty object, so its
    status reads [unknown]; a component gets the pass marker exactly when its
    status is the string [healthy]; and the heartbeat line is present exactly
    when the scheduler's [latest_scheduler_heartbeat] is present and truthy. *)
Theorem check_health_report (arguments : json) (tr : trace) (status : Z) (text : string)
  (rkvs : list (string * json))
  (Hup : forall rq, upstream tr rq = Response status text (inl (JObj rkvs)))
  (Hst : (200 <= status < 300)%Z)
  (Hm : forall v, assoc "metadatabase" rkvs = Some v -> exists kvs, v = JObj kvs)
  (Hs : forall v, assoc "scheduler" rkvs = Some v -> exists kvs, v = JObj kvs) :
  let comp k := match assoc k rkvs with Some (JObj kvs) => kvs | _ => [] end in
  let st kvs := match assoc "status" kvs with Some v => v | None => JStr "unknown" end in
  let marker v := if is_healthy v then "✅" else "❌" in
  let hb := match assoc "latest_scheduler_heartbeat" (comp "scheduler") with Some v => v | None => JNull end in
  fst (invoke "check_health" arguments tr)
    = Ok (text_result ("🏥 Airflow Health Status:" ++ nl ++ nl
          ++ marker (st (comp "metadatabase")) ++ " **Metadatabase**: " ++ py_str (st (comp "metadatabase")) ++ nl
          ++ marker (st (comp "scheduler")) ++ " **Scheduler**: " ++ py_str (st (comp "scheduler")) ++ nl
          ++ (if py_truthy hb then nl ++ "📅 Latest Scheduler Heartbeat: " ++ py_str hb ++ nl else "")))
  /\ (forall v, is_healthy v = true <-> v = JStr "healthy")
  /\ (assoc "metadatabase" rkvs = None -> st (comp "metadatabase") = JStr "unknown")
  /\ (assoc "scheduler" rkvs = None -> st (comp "scheduler") = JStr "unknown" /\ hb = JNull).
Proof.
  intros comp st marker hb. split; [|split; [|split]].
  - unfold call_tool, try_except. rewrite body_check_health. unfold call_check_health.
    unfold bind at 1. erewrite api_ok; [| apply Hup | exact Hst].
    rewrite !py_get_obj, !bind_lift_ok.
    unfold hb, marker, st, comp; clear hb marker st comp.
    destruct (assoc "metadatabase" rkvs) as [v|] eqn:Em; [destruct (Hm v eq_refl) as [mk ->]|];
    (destruct (assoc "scheduler" rkvs) as [w|] eqn:Es; [destruct (Hs w eq_refl) as [sk ->]|]);
    repeat (first [rewrite py_get_obj | rewrite bind_lift_ok]); cbv beta zeta;
    repeat (first [rewrite py_get_obj | rewrite bind_lift_ok]);
    try (destruct (assoc "latest_scheduler_heartbeat" sk) as [h|] eqn:Eh;
         [destruct (py_truthy h) eqn:Et; [rewrite (py_index_obj _ _ _ Eh), bind_lift_ok|] |]);
    unfold ret; repeat rewrite str_app_assoc; try rewrite Et; simpl py_truthy;
    repeat rewrite str_app_nil_r; repeat rewrite str_app_assoc; reflexivity.
  - intros v. destruct v; simpl; split; try discriminate.
    + intros H. apply String.eqb_eq in H. subst. reflexivity.
    + intros H. injection H as ->. reflexivity.
  - intros E. unfold st, comp. rewrite E. reflexivity.
  - intros E. unfold hb, st, comp. rewrite E. split; reflexivity.
Qed.


End Claims.

(** Witness of [call_tool_unknown_name]. *)
Lemma call_tool_unknown_name_witness :
  ~ In "nonexistent_tool" (map tool_name list_tools)
  /\ call_tool "http://localhost:8080/api/v2" "http://localhost:8080" (fun _ _ => RequestError "unreachable")
       "nonexistent_tool" (JObj []) []
     = (Ok (text_result ("❌ Error executing 'nonexistent_tool':" ++ nl ++ nl ++ "Unknown tool: nonexistent_tool")), []).
Proof.
  assert (H : ~ In "nonexistent_tool" (map tool_name list_tools)).
  { simpl. intuition discriminate. }
  split; [exact H|].
  exact (proj1 (call_tool_unknown_name "http://localhost:8080/api/v2" "http://localhost:8080"
                  (fun _ _ => RequestError "unreachable") "nonexistent_tool" (JObj []) [] H)).
Defined.

(** ** Requests that all fail with the same exception *)

Section Quiet.

Variable e0 : exc.

Lemma quiet_ret {A} (a : A) : quiet_or_raises e0 (ret a).
Proof. intros tr; left; reflexivity. Qed.

Lemma quiet_raise {A} (e : exc) : quiet_or_raises e0 (@raise A e).
Proof. intros tr; left; reflexivity. Qed.

Lemma quiet_lift {A} (r : res A) : quiet_or_raises e0 (lift r).
Proof. destruct r; [apply quiet_ret | apply quiet_raise]. Qed.

Lemma quiet_bind {A B} (m : M A) (k : A -> M B) :
  quiet_or_raises e0 m -> (forall a, quiet_or_raises e0 (k a)) -> quiet_or_raises e0 (bind m k).
Proof.
  intros Hm Hk tr; unfold bind.
  specialize (Hm tr); destruct (m tr) as [[a|e] tr1]; simpl in Hm.
  - destruct Hm as [->|Hm]; [apply Hk | discriminate].
  - simpl. destruct Hm as [Hm|Hm]; [left; exact Hm | right; congruence].
Qed.

Lemma quiet_always {A} (m : M A) : always_raises e0 m -> quiet_or_raises e0 m.
Proof. intros H tr; right; apply H. Qed.

Lemma always_bind {A B} (m : M A) (k : A -> M B) :
  always_raises e0 m -> always_raises e0 (bind m k).
Proof.
  intros Hm tr; unfold bind; specialize (Hm tr).
  destruct (m tr) as [[a|e] tr1]; simpl in *; [discriminate | congruence].
Qed.

Lemma quiet_try {A} (m : M A) (h : exc -> M A) :
  quiet_or_raises e0 m -> (forall e, always_raises e0 (h e)) -> quiet_or_raises e0 (try_except m h).
Proof.
  intros Hm Hh tr; unfold try_except; specialize (Hm tr).
  destruct (m tr) as [[a|e] tr1]; simpl in *; [exact Hm | right; apply Hh].
Qed.

Lemma quiet_for (xs : list json) (acc : string) (f : string -> json -> M string) :
  (forall a x, quiet_or_raises e0 (f a x)) -> quiet_or_raises e0 (py_for xs acc f).
Proof.
  revert acc; induction xs as [|x xs IH]; intros acc Hf; simpl.
  - apply quiet_ret.
  - apply quiet_bind; [apply Hf | intro; apply IH, Hf].
Qed.

End Quiet.

Ltac quiet_tac :=
  repeat (cbv beta zeta;
          match goal with
          | |- quiet_or_raises _ (bind (make_api_request _ _ _ _ _ _) _) =>
              apply quiet_always, always_bind; intro; reflexivity
          | |- always_raises _ (bind (make_api_request _ _ _ _ _ _) _) =>
              apply always_bind; intro; reflexivity
          | |- quiet_or_raises _ (try_except _ _) => apply quiet_try; [|intro]
          | |- quiet_or_raises _ (bind (py_for _ _ _) _) =>
              apply quiet_bind; [apply quiet_for; intros|intro]
          | |- quiet_or_raises _ (bind _ _) => apply quiet_bind; [apply quiet_lift|intro]
          | |- quiet_or_raises _ (ret _) => apply quiet_ret
          | |- quiet_or_raises _ (raise _) => apply quiet_raise
          | |- quiet_or_raises _ (if ?b then _ else _) => destruct b
          end).

Section NotFound.

Variable AIRFLOW_API_URL AIRFLOW_BASE_URL : string.

Lemma not_found_body_quiet (name : string) (arguments : json) :
  name <> "test_connection" ->
  quiet_or_raises not_found_exc (call_tool_body AIRFLOW_API_URL AIRFLOW_BASE_URL stub_404 name arguments).
Proof.
  intros Hn. unfold call_tool_body.
  repeat match goal with |- quiet_or_raises _ (if String.eqb name ?c then _ else _) =>
    destruct (String.eqb_spec name c) as [->|_] end;
  try congruence; try apply quiet_raise;
  unfold call_get_dags, call_get_dag_tasks, call_trigger_dag_run, call_clear_dag_run,
    call_set_dag_state, call_get_dag_runs, call_get_task_instances, call_get_dag_stats,
    call_get_task_logs, task_logs_primary, task_logs_fallback, call_get_import_errors,
    call_get_connections, call_get_connection, call_check_health;
  quiet_tac.
Qed.

End NotFound.

(** What the [except httpx.HTTPStatusError] clause puts after the status:
    the [detail] of a JSON object body, else the raw response text. *)
Definition error_detail_of (text : string) (parsed : json + string) : string :=
  match parsed with
  | inl (JObj kvs) => match assoc "detail" kvs with Some d => py_str d | None => text end
  | _ => text
  end.

Lemma escape_not_found :
  ex_msg not_found_exc = "API request failed (404): DAG not found".
Proof. reflexivity. Qed.

Lemma body_test_connection api_url base_url up arguments :
  call_tool_body api_url base_url up "test_connection" arguments = call_test_connection api_url up arguments.
Proof. reflexivity. Qed.

Lemma test_connection_not_found api_url arguments tr :
  (forall cid, py_index arguments "connection_id" = Ok cid ->
     exists tr1, call_test_connection api_url stub_404 arguments tr
       = (Ok (text_result (("❌ Connection test failed for '" ++ py_str cid ++ "':" ++ nl ++ nl)
                           ++ "Error: " ++ ex_msg not_found_exc ++ nl)), tr1))
  /\ (forall e, py_index arguments "connection_id" = Err e ->
        call_test_connection api_url stub_404 arguments tr = (Err e, tr)).
Proof.
  unfold call_test_connection, bind, lift; split; intros x Hx; rewrite Hx;
    [eexists|]; reflexivity.
Qed.

(** Claim C4: on a non-2xx response [make_api_request] raises an exception
    whose message holds the status code and the detail (the [detail] field
    of a JSON object body, else the raw text); hence, with an upstream that
    answers 404 [{"detail":"DAG not found"}], every invocation that sends a
    request returns an error result: one text that starts with the failure
    marker [❌] and holds "404" and "DAG not found", which for every tool
    but [test_connection] is the dispatcher's error text for that
    exception ([test_connection] answers with its own failure report). *)
Theorem api_error_carries_status_and_detail :
  (forall api_url upstream method endpoint params body tr status text parsed,
     upstream tr (mkRequest method (api_url ++ "/" ++ lstrip_slash endpoint) params body)
       = Response status text parsed ->
     ~ (200 <= status < 300)%Z ->
     let msg := "API request failed (" ++ z_to_dec status ++ "): " ++ error_detail_of text parsed in
     make_api_request api_url upstream method endpoint params body tr
       = (Err (mkExc PyException msg),
          app tr [mkRequest method (api_url ++ "/" ++ lstrip_slash endpoint) params body])
     /\ contains (z_to_dec status) msg = true
     /\ contains (error_detail_of text parsed) msg = true)
  /\
  (forall api_url base_url name arguments tr r tr',
     call_tool api_url base_url stub_404 name arguments tr = (r, tr') ->
     tr' <> tr ->
     exists s, r = Ok (text_result s) /\ is_prefix "❌" s = true
       /\ contains "404" s = true /\ contains "DAG not found" s = true
       /\ (name <> "test_connection" -> s = error_text name not_found_exc)).
Proof.
  split.
  - intros api_url upstream method endpoint params body tr status text parsed Hup Hst msg.
    unfold make_api_request. rewrite Hup.
    replace (Z.leb 200 status && Z.ltb status 300)%bool with false.
    2:{ symmetry. apply Bool.not_true_iff_false. intros H.
        apply andb_prop in H as [H1 H2]. apply Hst. split; [apply Z.leb_le | apply Z.ltb_lt]; assumption. }
    split; [reflexivity|]. subst msg. split.
    + apply contains_app_r with (a := "API request failed ("). apply contains_prefix.
    + do 3 apply contains_app_r. rewrite <- (str_app_nil_r (error_detail_of text parsed)) at 2.
      apply contains_prefix.
  - intros api_url base_url name arguments tr r tr' Hrun Hne.
    destruct (String.eqb_spec name "test_connection") as [->|Hn].
    + unfold call_tool, try_except in Hrun. rewrite body_test_connection in Hrun.
      destruct (py_index arguments "connection_id") as [cid|e] eqn:Ec.
      * destruct (test_connection_not_found api_url arguments tr) as [H _].
        destruct (H cid Ec) as [tr1 Htc]. rewrite Htc in Hrun.
        injection Hrun as <- <-.
        eexists; split; [reflexivity|]. split; [reflexivity|].
        rewrite !str_app_assoc.
        split; [solve_contains | split; [solve_contains | congruence]].
      * destruct (test_connection_not_found api_url arguments tr) as [_ H].
        rewrite (H e Ec) in Hrun. injection Hrun as <- <-. congruence.
    + pose proof (not_found_body_quiet api_url base_url name arguments Hn tr) as Hq.
      unfold call_tool, try_except in Hrun.
      destruct (call_tool_body api_url base_url stub_404 name arguments tr) as [[a|e] tr1];
        simpl in Hq, Hrun; injection Hrun as <- <-.
      * destruct Hq as [Hq|Hq]; [congruence | discriminate].
      * destruct Hq as [Hq|Hq]; [congruence|]. injection Hq as ->.
        eexists; split; [reflexivity|]. split; [reflexivity|].
        split; [|split; [|reflexivity]]; unfold error_text; rewrite escape_not_found; solve_contains.
Qed.

(** Witness of [api_error_carries_status_and_detail]: a 404 on the [dags]
    request of [get_dags]. *)
Lemma api_error_carries_status_and_detail_witness :
  make_api_request "http://localhost:8080/api/v2" stub_404 "GET" "dags" None None []
    = (Err not_found_exc, [mkRequest "GET" "http://localhost:8080/api/v2/dags" None None])
  /\ exists s,
    fst (call_tool "http://localhost:8080/api/v2" "http://localhost:8080" stub_404 "get_dags" (JObj []) [])
      = Ok (text_result s)
    /\ is_prefix "❌" s = true /\ contains "404" s = true /\ contains "DAG not found" s = true
    /\ s = error_text "get_dags" not_found_exc.
Proof.
  split.
  - exact (proj1 (proj1 api_error_carries_status_and_detail "http://localhost:8080/api/v2" stub_404
                   "GET" "dags" None None [] 404%Z _ _ eq_refl ltac:(lia))).
  - destruct (proj2 api_error_carries_status_and_detail "http://localhost:8080/api/v2" "http://localhost:8080"
                "get_dags" (JObj []) []
                (fst (call_tool "http://localhost:8080/api/v2" "http://localhost:8080" stub_404 "get_dags" (JObj []) []))
                (snd (call_tool "http://localhost:8080/api/v2" "http://localhost:8080" stub_404 "get_dags" (JObj []) [])))
      as [s [H1 [H2 [H3 [H4 H5]]]]].
    + reflexivity.
    + discriminate.
    + exists s. split; [exact H1 | split; [exact H2 | split; [exact H3 | split; [exact H4 | apply H5]]]].
      discriminate.
Defined.

(** Witness of [task_logs_fallback_after_primary_failure]: the logs request
    of task [t] of run [r] of DAG [d] fails with a 404, the task-instance
    request succeeds. *)
Lemma task_logs_fallback_after_primary_failure_witness :
  exists s tr',
    call_tool "http://localhost:8080/api/v2" "http://localhost:8080" stub_no_logs "get_task_logs"
      (JObj [("dag_id", JStr "d"); ("dag_run_id", JStr "r"); ("task_id", JStr "t")]) []
    = (Ok (text_result s), tr')
    /\ contains "- State: failed" s = true
    /\ contains "Error: API request failed (404): Log not found" s = true.
Proof.
  destruct (task_logs_fallback_after_primary_failure "http://localhost:8080/api/v2" "http://localhost:8080"
              stub_no_logs (JObj [("dag_id", JStr "d"); ("dag_run_id", JStr "r"); ("task_id", JStr "t")])
              [] [mkRequest "GET" "http://localhost:8080/api/v2/dags/d/dagRuns/r/taskInstances/t/logs/1" None None]
              (JStr "d") (JStr "r") (JStr "t") (JInt 1)
              (mkExc PyException "API request failed (404): Log not found")
              eq_refl eq_refl eq_refl eq_refl ltac:(vm_compute; reflexivity)) as [Hok _].
  destruct (Hok 200%Z "" [("state", JStr "failed"); ("try_number", JInt 1)] ltac:(vm_compute; reflexivity) ltac:(lia))
    as [s [Hs [H1 [_ [_ [_ [_ H6]]]]]]].
  eexists s, _. split; [exact Hs|]. split; [exact H1 | exact H6].
Defined.

(** Witness of [get_dag_runs_params_and_markers]: run [r1] (state
    [SUCCESS]) is listed as a success, run [r2] (no state) with the generic
    marker, and the request carries no [state] parameter. *)
Lemma get_dag_runs_params_and_markers_witness :
  exists s, fst (call_tool "http://localhost:8080/api/v2" "http://localhost:8080" stub_two_runs
                   "get_dag_runs" (JObj [("dag_id", JStr "d")]) []) = Ok (text_result s)
    /\ contains "✅ **r1**" s = true /\ contains "❓ **r2**" s = true.
Proof.
  destruct (get_dag_runs_params_and_markers "http://localhost:8080/api/v2" "http://localhost:8080"
              stub_two_runs [("dag_id", JStr "d")] [] (JStr "d") 200%Z ""
              [("dag_runs", JList [JObj [("dag_run_id", JStr "r1"); ("state", JStr "SUCCESS")];
                                   JObj [("dag_run_id", JStr "r2")]])]
              [JObj [("dag_run_id", JStr "r1"); ("state", JStr "SUCCESS")]; JObj [("dag_run_id", JStr "r2")]]
              eq_refl (fun _ => eq_refl) ltac:(lia) eq_refl)
    as [_ [[s [Hs Hin]] _]].
  { repeat constructor.
    - do 2 eexists; split; [reflexivity|]; split; [reflexivity|]; right; eexists; reflexivity.
    - do 2 eexists; split; [reflexivity|]; split; [reflexivity|]; left; reflexivity. }
  exists s. split; [exact Hs|]. split.
  - exact (Hin _ (or_introl eq_refl)).
  - exact (Hin _ (or_intror (or_introl eq_refl))).
Defined.

(** Witness of [null_state_entry_fails]: a run and a task instance with a
    [null] state; both invocations return the error text of [None.lower]. *)
Lemma null_state_entry_fails_witness :
  let err name := text_result (error_text name
                   (mkExc AttributeError "'NoneType' object has no attribute 'lower'")) in
  fst (call_tool "http://localhost:8080/api/v2" "http://localhost:8080" stub_null_states
         "get_dag_runs" (JObj [("dag_id", JStr "d"); ("dag_run_id", JStr "r1")]) [])
    = Ok (err "get_dag_runs")
  /\ fst (call_tool "http://localhost:8080/api/v2" "http://localhost:8080" stub_null_states
         "get_task_instances" (JObj [("dag_id", JStr "d"); ("dag_run_id", JStr "r1")]) [])
    = Ok (err "get_task_instances").
Proof.
  destruct (null_state_entry_fails "http://localhost:8080/api/v2" "http://localhost:8080" stub_null_states
              [("dag_id", JStr "d"); ("dag_run_id", JStr "r1")] [] (JStr "d") 200%Z ""
              [("dag_runs", JList [JObj [("dag_run_id", JStr "r1"); ("state", JNull)]]);
               ("task_instances", JList [JObj [("task_id", JStr "t1"); ("state", JNull)]])]
              [JObj [("dag_run_id", JStr "r1"); ("state", JNull)]]
              eq_refl (fun _ => eq_refl) ltac:(lia)) as [Hruns _].
  destruct (null_state_entry_fails "http://localhost:8080/api/v2" "http://localhost:8080" stub_null_states
              [("dag_id", JStr "d"); ("dag_run_id", JStr "r1")] [] (JStr "d") 200%Z ""
              [("dag_runs", JList [JObj [("dag_run_id", JStr "r1"); ("state", JNull)]]);
               ("task_instances", JList [JObj [("task_id", JStr "t1"); ("state", JNull)]])]
              [JObj [("task_id", JStr "t1"); ("state", JNull)]]
              eq_refl (fun _ => eq_refl) ltac:(lia)) as [_ Htis].
  split.
  - destruct (Hruns eq_refl) as [_ [H _]]. exact (H _ _ eq_refl eq_refl).
  - destruct (Htis (JStr "r1") eq_refl eq_refl) as [_ [H _]]. exact (H _ _ eq_refl eq_refl).
Defined.

(** Witness of [check_health_report]: a healthy metadatabase and no
    scheduler give the pass marker, then the fail marker with [unknown], and
    no heartbeat line. *)
Lemma check_health_report_witness :
  fst (call_tool "http://localhost:8080/api/v2" "http://localhost:8080" stub_health_db_only
         "check_health" (JObj []) [])
  = Ok (text_result ("🏥 Airflow Health Status:" ++ nl ++ nl ++ "✅ **Metadatabase**: healthy" ++ nl
                     ++ "❌ **Scheduler**: unknown" ++ nl)).
Proof.
  destruct (check_health_report "http://localhost:8080/api/v2" "http://localhost:8080" stub_health_db_only
              (JObj []) [] 200%Z "" [("metadatabase", JObj [("status", JStr "healthy")])]
              (fun _ => eq_refl) ltac:(lia)
              ltac:(intros v H; injection H as <-; eexists; reflexivity)
              ltac:(intros v H; discriminate H)) as [H _].
  rewrite H. reflexivity.
Defined.

(** * The tool registry *)

Lemma call_tool_ok api_url base_url up name arguments tr :
  exists out tr', call_tool api_url base_url up name arguments tr = (Ok out, tr').
Proof.
  unfold call_tool, try_except.
  destruct (call_tool_body api_url base_url up name arguments tr) as [[a|e] tr1]; do 2 eexists; reflexivity.
Qed.

Lemma serve_ok api_url base_url up ops tr :
  exists replies tr', serve api_url base_url up ops tr = (Ok replies, tr')
    /\ forall ts, In (RTools ts) replies -> ts = list_tools.
Proof.
  revert tr; induction ops as [|o ops IH]; intros tr; simpl.
  - exists [], tr. split; [reflexivity | intros _ []].
  - destruct o as [|name arguments]; unfold bind at 1.
    + unfold ret at 1. destruct (IH tr) as [replies [tr' [Hr Hin]]].
      unfold bind. rewrite Hr. eexists _, tr'. split; [reflexivity|].
      intros ts [H|H]; [injection H as <-; reflexivity | apply Hin, H].
    + destruct (call_tool_ok api_url base_url up name arguments tr) as [out [tr1 Ho]]. rewrite Ho.
      destruct (IH tr1) as [replies [tr' [Hr Hin]]].
      unfold bind. rewrite Hr. eexists _, tr'. split; [reflexivity|].
      intros ts [H|H]; [discriminate | apply Hin, H].
Qed.

(** Claim C8: in every session, whatever tool invocations come before or
    between them, each list-tools request answers the same registry
    [list_tools] (same names, descriptions and schemas) and sends no
    request; the registry holds the fourteen names of the interface, each
    once, every schema is of type [object], and its property names and
    [required] list are those of the interface's parameter list. *)
Theorem list_tools_registry (api_url base_url : string) (up : trace -> request -> http_outcome)
  (ops : list op) (tr : trace) :
  (exists replies tr', serve api_url base_url up ops tr = (Ok replies, tr')
     /\ forall ts, In (RTools ts) replies -> ts = list_tools)
  /\ serve api_url base_url up [ListToolsOp] tr = (Ok [RTools list_tools], tr)
  /\ map tool_name list_tools
     = ["get_dags"; "get_dag_tasks"; "trigger_dag_run"; "clear_dag_run"; "set_dag_state";
        "get_dag_runs"; "get_task_instances"; "get_dag_stats"; "get_task_logs";
        "get_import_errors"; "get_connections"; "get_connection"; "test_connection"; "check_health"]
  /\ NoDup (map tool_name list_tools)
  /\ Forall (fun t => schema_is_object t = true) list_tools
  /\ map schema_view list_tools = map spec_schema_view spec_tool_params.
Proof.
  split; [apply serve_ok|].
  split; [reflexivity|].
  split; [reflexivity|].
  split; [|split; [repeat constructor | vm_compute; reflexivity]].
  simpl. repeat constructor; simpl; intuition discriminate.
Qed.



(** * Requests sent, exceptions raised *)

Section SendsLemmas.

Variable P : request -> Prop.

Lemma sends_ret {A} n (a : A) : sends P n (ret a).
Proof. intros tr. exists []. rewrite app_nil_r. split; [reflexivity | split; [simpl; lia | constructor]]. Qed.

Lemma sends_raise {A} n (e : exc) : sends P n (@raise A e).
Proof. intros tr. exists []. rewrite app_nil_r. split; [reflexivity | split; [simpl; lia | constructor]]. Qed.

Lemma sends_lift0 {A} (r : res A) : sends P 0 (lift r).
Proof. destruct r; [apply sends_ret | apply sends_raise]. Qed.

Lemma sends_bind0 {A B} (m : M A) (k : A -> M B) n :
  sends P 0 m -> (forall a, sends P n (k a)) -> sends P n (bind m k).
Proof.
  intros Hm Hk tr. destruct (Hm tr) as [new [Hs [Hl _]]].
  destruct new; [|simpl in Hl; lia]. rewrite app_nil_r in Hs.
  unfold bind. destruct (m tr) as [[a|e] tr1]; simpl in Hs; subst tr1.
  - apply Hk.
  - exists []. rewrite app_nil_r. split; [reflexivity | split; [simpl; lia | constructor]].
Qed.

Lemma sends_bind_api {B} api_url up method endpoint params body (k : json -> M B) n :
  P (mkRequest method (api_url ++ "/" ++ lstrip_slash endpoint) params body) ->
  (forall a, sends P n (k a)) ->
  sends P (S n) (bind (make_api_request api_url up method endpoint params body) k).
Proof.
  intros Hp Hk tr. pose proof (api_trace api_url up method endpoint params body tr) as Ht.
  unfold bind. destruct (make_api_request api_url up method endpoint params body tr) as [[a|e] tr1];
    cbn [snd] in Ht; subst tr1; cbv beta iota.
  - destruct (Hk a (app tr [mkRequest method (api_url ++ "/" ++ lstrip_slash endpoint) params body]))
      as [new [Hs [Hl Hf]]].
    exists (mkRequest method (api_url ++ "/" ++ lstrip_slash endpoint) params body :: new).
    rewrite Hs, <- app_assoc. split; [reflexivity | split; [simpl; lia | constructor; assumption]].
  - eexists. split; [reflexivity | split; [simpl; lia | constructor; [exact Hp | constructor]]].
Qed.

Lemma sends_try_ret {A} (m : M A) (f : exc -> A) n :
  sends P n m -> sends P n (try_except m (fun e => ret (f e))).
Proof.
  intros Hm tr. destruct (Hm tr) as [new [Hs HP]]. exists new.
  unfold try_except. destruct (m tr) as [[a|e] tr1]; simpl in *; split; assumption.
Qed.

Lemma sends_try_S {A} (m : M A) (h : exc -> M A) n :
  sends P 1 m -> (forall e, sends P n (h e)) -> sends P (S n) (try_except m h).
Proof.
  intros Hm Hh tr. destruct (Hm tr) as [new [Hs [Hl Hf]]].
  unfold try_except. destruct (m tr) as [[a|e] tr1]; simpl in Hs; subst tr1.
  - exists new. simpl. split; [reflexivity | split; [lia | exact Hf]].
  - destruct (Hh e (app tr new)) as [new' [Hs' [Hl' Hf']]].
    exists (app new new'). rewrite Hs', <- app_assoc. split; [reflexivity|].
    rewrite length_app. split; [lia | apply Forall_app; split; assumption].
Qed.

Lemma sends_for (xs : list json) (acc : string) (f : string -> json -> M string) :
  (forall a x, sends P 0 (f a x)) -> sends P 0 (py_for xs acc f).
Proof.
  revert acc; induction xs as [|x xs IH]; intros acc Hf; simpl.
  - apply sends_ret.
  - apply sends_bind0; [apply Hf | intro; apply IH, Hf].
Qed.

End SendsLemmas.

Ltac sends_tac :=
  repeat (cbv beta zeta;
          match goal with
          | |- sends _ (S _) (bind (make_api_request _ _ _ _ _ _) _) =>
              apply sends_bind_api;
                [cbn [rq_url rq_method]; rewrite <- str_app_assoc; split; [apply is_prefix_app | reflexivity]
                | intro]
          | |- sends _ _ (bind (py_for _ _ _) _) =>
              apply sends_bind0; [apply sends_for; intros|intro]
          | |- sends _ _ (bind (lift _) _) => apply sends_bind0; [apply sends_lift0|intro]
          | |- sends _ _ (ret _) => apply sends_ret
          | |- sends _ _ (raise _) => apply sends_raise
          | |- sends _ _ (try_except _ (fun e => ret _)) => apply sends_try_ret
          | |- sends _ (S _) (try_except _ _) => apply sends_try_S; [|intro]
          | |- sends _ _ (if ?b then _ else _) => destruct b
          end).

Section RaisesLemmas.

Variable Q : exc -> Prop.

Lemma ro_ret {A} (a : A) : raises_only Q (ret a).
Proof. intros tr; exact I. Qed.

Lemma ro_raise {A} (e : exc) : Q e -> raises_only Q (@raise A e).
Proof. intros H tr; exact H. Qed.

Lemma ro_lift {A} (r : res A) : res_only Q r -> raises_only Q (lift r).
Proof. destruct r; intros H tr; [exact I | exact H]. Qed.

Lemma ro_bind {A B} (m : M A) (k : A -> M B) :
  raises_only Q m -> (forall a, raises_only Q (k a)) -> raises_only Q (bind m k).
Proof.
  intros Hm Hk tr. specialize (Hm tr). unfold bind.
  destruct (m tr) as [[a|e] tr1]; [apply Hk | exact Hm].
Qed.

Lemma ro_try {A} (m : M A) (h : exc -> M A) :
  (forall e, raises_only Q (h e)) -> raises_only Q (try_except m h).
Proof. intros Hh tr. unfold try_except. destruct (m tr) as [[a|e] tr1]; [exact I | apply Hh]. Qed.

Lemma ro_for (xs : list json) (acc : string) (f : string -> json -> M string) :
  (forall a x, raises_only Q (f a x)) -> raises_only Q (py_for xs acc f).
Proof.
  revert acc; induction xs as [|x xs IH]; intros acc Hf; simpl.
  - apply ro_ret.
  - apply ro_bind; [apply Hf | intro; apply IH, Hf].
Qed.

Lemma ro_api api_url up method endpoint params body :
  (forall msg, Q (mkExc PyException msg)) ->
  raises_only Q (make_api_request api_url up method endpoint params body).
Proof.
  intros HQ tr. unfold make_api_request; cbv zeta.
  match goal with |- context [up tr ?r] => destruct (up tr r) as [m|m|st tx parsed] end;
    simpl; try apply HQ.
  destruct (Z.leb 200 st && Z.ltb st 300); [destruct parsed|]; simpl; try exact I; apply HQ.
Qed.

End RaisesLemmas.


Lemma join_strs_not_value_error i xs : res_only not_value_error (join_strs i xs).
Proof.
  revert i; induction xs as [|x xs IH]; intros i; simpl; [exact I|].
  destruct x; try (unfold res_only, not_value_error; simpl; discriminate).
  specialize (IH (S i)). destruct (join_strs (S i) xs); [exact I | exact IH].
Qed.

Ltac nv_cases :=
  unfold res_only, not_value_error; simpl;
  repeat match goal with
         | |- context [match assoc ?k ?l with _ => _ end] => destruct (assoc k l)
         end;
  simpl; try exact I; discriminate.

Lemma py_get_nv v k d : res_only not_value_error (py_get v k d).
Proof. destruct v; nv_cases. Qed.

Lemma py_index_nv v k : res_only not_value_error (py_index v k).
Proof. destruct v; nv_cases. Qed.

Lemma py_iter_nv v : res_only not_value_error (py_iter v).
Proof. destruct v; nv_cases. Qed.

Lemma py_len_nv v : res_only not_value_error (py_len v).
Proof. destruct v; nv_cases. Qed.

Lemma py_lower_nv v : res_only not_value_error (py_lower v).
Proof. destruct v; nv_cases. Qed.

Lemma py_str_concat_nv acc v : res_only not_value_error (py_str_concat acc v).
Proof. destruct v; nv_cases. Qed.

Lemma py_join_nv sep v : res_only not_value_error (py_join sep v).
Proof.
  unfold py_join; destruct (py_iter v) as [xs|].
  - generalize (join_strs_not_value_error 0 xs); destruct (join_strs 0 xs); unfold res_only; auto.
  - unfold res_only, not_value_error; simpl; discriminate.
Qed.

Ltac res_nv_tac :=
  first [ apply py_get_nv | apply py_index_nv | apply py_iter_nv | apply py_len_nv
        | apply py_lower_nv | apply py_str_concat_nv | apply py_join_nv
        | match goal with |- res_only _ (match ?v with _ => _ end) =>
            destruct v; first [apply py_get_nv | exact I] end ].

Ltac ro_tac :=
  repeat (cbv beta zeta;
          match goal with
          | |- raises_only _ (bind (make_api_request _ _ _ _ _ _) _) =>
              apply ro_bind; [apply ro_api; unfold not_value_error; discriminate | intro]
          | |- raises_only _ (bind (py_for _ _ _) _) => apply ro_bind; [apply ro_for; intros|intro]
          | |- raises_only _ (bind (lift _) _) => apply ro_bind; [apply ro_lift; res_nv_tac|intro]
          | |- raises_only _ (ret _) => apply ro_ret
          | |- raises_only _ (try_except _ _) => apply ro_try; intro
          | |- raises_only _ (if ?b then _ else _) => destruct b
          end).

Lemma py_for_exact (xs : list json) (acc : string) (f : string -> json -> M string) (tr : trace)
  (g : json -> string) :
  (forall x, In x xs -> forall acc, f acc x tr = (Ok (acc ++ g x), tr)) ->
  py_for xs acc f tr = (Ok (acc ++ concat_strs (map g xs)), tr).
Proof.
  revert acc; induction xs as [|x xs IH]; intros acc Hf; simpl.
  - rewrite str_app_nil_r; reflexivity.
  - unfold bind. rewrite (Hf x (or_introl eq_refl) acc), IH, str_app_assoc; [reflexivity|].
    intros y Hy; apply Hf; right; exact Hy.
Qed.

Lemma py_index_missing kvs k : assoc k kvs = None -> py_index (JObj kvs) k = Err (mkExc KeyError (repr_str k)).
Proof. intros H; simpl; rewrite H; reflexivity. Qed.

Lemma join_strs_strs i l :
  Forall (fun x => exists s, x = JStr s) l ->
  join_strs i l = Ok (flat_map (fun x => match x with JStr s => [s] | _ => [] end) l).
Proof.
  revert i; induction l as [|x l IH]; intros i Hl; [reflexivity|].
  inversion Hl as [|? ? [s ->] Hr]; subst. simpl. rewrite (IH (S i) Hr). reflexivity.
Qed.

Lemma join_strs_err i l x :
  In x l -> (forall s, x <> JStr s) -> exists e, join_strs i l = Err e.
Proof.
  revert i; induction l as [|y l IH]; intros i Hin Hx; [destruct Hin|].
  destruct Hin as [->|Hin].
  - destruct x; try (eexists; reflexivity). destruct (Hx s eq_refl).
  - destruct y; try (eexists; reflexivity). simpl.
    destruct (IH (S i) Hin Hx) as [e He]. rewrite He. exists e; reflexivity.
Qed.

Ltac close_result :=
  unfold ret; cbv beta iota; apply injective_projections; cbn [fst snd];
  [ match goal with |- Ok (text_result ?a) = Ok (text_result ?b) =>
      replace a with b; [reflexivity|]; repeat rewrite str_app_assoc; reflexivity end
  | reflexivity ].

Ltac close_step :=
  unfold ret; cbv beta;
  match goal with |- (Ok ?a, ?t) = (Ok ?b, ?t') => replace b with a; [reflexivity|] end;
  unfold import_error_block, connection_block, clear_line, task_block, stat_line, field_or, field_or_na;
  repeat rewrite str_app_assoc; reflexivity.

Ltac close_pair :=
  match goal with |- (Ok (text_result ?a), ?t) = (Ok (text_result ?b), ?t') =>
    replace a with b; [reflexivity|] end;
  unfold connection_failed, connection_accessible, field_or_na, field_or;
  repeat rewrite str_app_assoc; reflexivity.

Section Base64.

Local Open Scope Z_scope.

Lemma b64_index_char (i : Z) : 0 <= i < 64 -> b64_index (b64_char i) = Some i.
Proof.
  intros Hi.
  assert (H : forallb (fun k => match b64_index (b64_char (Z.of_nat k)) with
                                | Some j => Z.eqb j (Z.of_nat k) | None => false end) (seq 0 64) = true)
    by (vm_compute; reflexivity).
  rewrite forallb_forall in H.
  specialize (H (Z.to_nat i)). rewrite in_seq in H. rewrite Z2Nat.id in H by lia.
  destruct (b64_index (b64_char i)) as [j|]; [|discriminate (H ltac:(lia))].
  apply Z.eqb_eq in H; [subst; reflexivity | lia].
Qed.

Lemma b64_char_not_pad (i : Z) : 0 <= i < 64 -> Ascii.eqb (b64_char i) "=" = false.
Proof.
  intros Hi. destruct (Ascii.eqb_spec (b64_char i) "=") as [E|]; [|reflexivity].
  pose proof (b64_index_char i Hi) as H. rewrite E in H. vm_compute in H. discriminate.
Qed.

Lemma lor_shiftl_add (x y k : Z) : 0 <= k -> 0 <= y < 2 ^ k -> Z.lor (Z.shiftl x k) y = x * 2 ^ k + y.
Proof.
  intros Hk Hy.
  assert (Hl : Z.land (Z.shiftl x k) y = 0).
  { apply Z.bits_inj'. intros i Hi. rewrite Z.land_spec, Z.bits_0, Z.shiftl_spec by lia.
    destruct (Z.lt_ge_cases i k).
    - rewrite Z.testbit_neg_r by lia. reflexivity.
    - replace (Z.testbit y i) with false; [apply andb_false_r|].
      symmetry. apply Z.testbit_false; [lia|].
      rewrite Z.div_small; [reflexivity|]. split; [lia|].
      apply Z.lt_le_trans with (2 ^ k); [lia | apply Z.pow_le_mono_r; lia]. }
  rewrite <- Z.lxor_lor by exact Hl. rewrite <- Z.add_nocarry_lxor by exact Hl.
  rewrite Z.shiftl_mul_pow2 by lia. reflexivity.
Qed.

Lemma byte_of_bound (c : ascii) : 0 <= byte_of c < 256.
Proof. unfold byte_of. pose proof (nat_ascii_bounded c). lia. Qed.

Lemma byte_char_of (c : ascii) : byte_char (byte_of c) = c.
Proof. unfold byte_char, byte_of. rewrite Nat2Z.id. apply ascii_nat_embedding. Qed.

Lemma land63 (x : Z) : Z.land x 63 = x mod 64.
Proof. change 63 with (Z.ones 6). rewrite Z.land_ones by lia. reflexivity. Qed.

Ltac b64_arith := Z.div_mod_to_equations; lia.

Lemma byte_char_eq (e : Z) (c : ascii) : e = byte_of c -> byte_char e = c.
Proof. intros ->. apply byte_char_of. Qed.

Ltac close_bytes :=
  repeat match goal with
         | |- Some _ = Some _ => f_equal
         | |- String _ _ = String _ _ => f_equal
         | |- byte_char _ = _ => apply byte_char_eq; b64_arith
         end.

Lemma b64_roundtrip (s : string) : b64decode (b64encode s) = Some s.
Proof.
  revert s; fix IH 1; intros s.
  destruct s as [|a [|b [|c r]]].
  - reflexivity.
  - pose proof (byte_of_bound a) as Ha.
    cbn [b64encode].
    rewrite !Z.shiftr_div_pow2, !Z.shiftl_mul_pow2, !land63 by lia.
    change (2 ^ 16) with 65536; change (2 ^ 18) with 262144; change (2 ^ 12) with 4096.
    cbn [b64decode].
    rewrite !b64_index_char by b64_arith.
    rewrite Ascii.eqb_refl. cbn [andb String.eqb]. close_bytes.
  - pose proof (byte_of_bound a) as Ha. pose proof (byte_of_bound b) as Hb.
    cbn [b64encode].
    rewrite (lor_shiftl_add (byte_of a) (Z.shiftl (byte_of b) 8) 16)
      by (try rewrite Z.shiftl_mul_pow2 by lia; change (2 ^ 8) with 256; change (2 ^ 16) with 65536; lia).
    rewrite !Z.shiftr_div_pow2, !Z.shiftl_mul_pow2, !land63 by lia.
    change (2 ^ 8) with 256; change (2 ^ 6) with 64;
      change (2 ^ 16) with 65536; change (2 ^ 18) with 262144; change (2 ^ 12) with 4096.
    cbn [b64decode].
    rewrite !b64_index_char by b64_arith.
    rewrite b64_char_not_pad by b64_arith.
    rewrite Ascii.eqb_refl. cbn [andb String.eqb]. close_bytes.
  - pose proof (byte_of_bound a) as Ha. pose proof (byte_of_bound b) as Hb. pose proof (byte_of_bound c) as Hc.
    cbn [b64encode].
    rewrite (lor_shiftl_add (byte_of b) (byte_of c) 8) by (change (2 ^ 8) with 256; lia).
    rewrite (lor_shiftl_add (byte_of a) (byte_of b * 2 ^ 8 + byte_of c) 16)
      by (change (2 ^ 8) with 256; change (2 ^ 16) with 65536; lia).
    rewrite !Z.shiftr_div_pow2, !land63 by lia.
    change (2 ^ 8) with 256; change (2 ^ 6) with 64;
      change (2 ^ 16) with 65536; change (2 ^ 18) with 262144; change (2 ^ 12) with 4096.
    cbn [b64decode].
    rewrite !b64_index_char by b64_arith.
    rewrite !b64_char_not_pad by b64_arith.
    rewrite (IH r). close_bytes.
Qed.

Lemma b64_length (s : string) : String.length (b64encode s) = (4 * ((String.length s + 2) / 3))%nat.
Proof.
  revert s; fix IH 1; intros s.
  destruct s as [|a [|b [|c r]]]; try reflexivity.
  cbn [b64encode String.length]. rewrite (IH r).
  replace (S (S (S (String.length r))) + 2)%nat with (1 * 3 + (String.length r + 2))%nat by lia.
  rewrite Nat.div_add_l by lia. lia.
Qed.

Lemma str_length_app (x y : string) : String.length (x ++ y) = (String.length x + String.length y)%nat.
Proof. induction x as [|c x IH]; simpl; [reflexivity | rewrite IH; reflexivity]. Qed.

(** [get_auth_headers] sends the JWT as a bearer token when one is set and
    non-empty; otherwise it sends Basic credentials whose encoding decodes
    back to [username:password] and has the length of a padded [base64]
    text of those bytes. Either way the content type is JSON. *)
Theorem get_auth_headers_modes (username password : string) :
  (forall token, token <> "" ->
     get_auth_headers (Some token) username password
     = [("Authorization", "Bearer " ++ token); ("Content-Type", "application/json")])
  /\ (forall jwt, jwt = None \/ jwt = Some "" ->
      exists encoded, get_auth_headers jwt username password
                      = [("Authorization", "Basic " ++ encoded); ("Content-Type", "application/json")]
        /\ b64decode encoded = Some (username ++ ":" ++ password)
        /\ String.length encoded = (4 * ((String.length username + String.length password + 3) / 3))%nat).
Proof.
  split.
  - intros token Ht. unfold get_auth_headers. destruct (String.eqb_spec token ""); [contradiction | reflexivity].
  - intros jwt Hj. exists (b64encode (username ++ ":" ++ password)).
    split; [destruct Hj as [->| ->]; reflexivity|]. split; [apply b64_roundtrip|].
    rewrite b64_length, str_length_app. simpl String.length.
    do 2 f_equal. lia.
Qed.

End Base64.

Section Extras.

Variable AIRFLOW_API_URL AIRFLOW_BASE_URL : string.
Variable upstream : trace -> request -> http_outcome.

Local Abbreviation api := (make_api_request AIRFLOW_API_URL upstream).
Local Abbreviation body := (call_tool_body AIRFLOW_API_URL AIRFLOW_BASE_URL upstream).
Local Abbreviation invoke := (call_tool AIRFLOW_API_URL AIRFLOW_BASE_URL upstream).

Ltac split_tool_chain name :=
  repeat match goal with
         | |- context [if String.eqb name ?c then _ else _] =>
             destruct (String.eqb_spec name c) as [?Heq|?Hne];
             [subst name; cbv iota | cbv iota]
         end.

(** Every invocation only appends requests to the log: at most two for
    [get_task_logs], at most one for any other registered tool and none for
    an unknown name; each goes to a URL under [AIRFLOW_API_URL/] with the
    tool's method, [POST] for [trigger_dag_run] and [clear_dag_run],
    [PATCH] for [set_dag_state] and [GET] for every other tool. *)
Theorem call_tool_requests (name : string) (arguments : json) :
  sends (fun rq => is_prefix (AIRFLOW_API_URL ++ "/") (rq_url rq) = true /\ rq_method rq = tool_method name)
    (request_bound name) (invoke name arguments).
Proof.
  unfold call_tool. apply sends_try_ret. unfold call_tool_body.
  remember (tool_method name) as meth eqn:Hm. remember (request_bound name) as nb eqn:Hb.
  split_tool_chain name;
    try (vm_compute in Hm, Hb; subst meth nb;
         unfold call_get_dags, call_get_dag_tasks, call_trigger_dag_run, call_clear_dag_run,
           call_set_dag_state, call_get_dag_runs, call_get_task_instances, call_get_dag_stats,
           call_get_task_logs, task_logs_primary, task_logs_fallback, call_get_import_errors,
           call_get_connections, call_get_connection, call_test_connection, call_check_health;
         sends_tac; fail).
Qed.

(** A registered tool is never rejected as unknown: whatever the arguments
    and the upstream answers, the exceptions its branch raises are key,
    attribute, type or API errors, never the [ValueError] of an unknown
    name. *)
Theorem registered_tool_never_unknown (name : string) (arguments : json) :
  In name (map tool_name list_tools) ->
  raises_only not_value_error (body name arguments).
Proof.
  intros Hin. unfold call_tool_body.
  split_tool_chain name;
    try (unfold call_get_dags, call_get_dag_tasks, call_trigger_dag_run, call_clear_dag_run,
           call_set_dag_state, call_get_dag_runs, call_get_task_instances, call_get_dag_stats,
           call_get_task_logs, task_logs_primary, task_logs_fallback, call_get_import_errors,
           call_get_connections, call_get_connection, call_test_connection, call_check_health;
         ro_tac; fail).
  simpl in Hin. intuition congruence.
Qed.

(** [make_api_request] sends exactly one request, to [AIRFLOW_API_URL/]
    followed by the endpoint without its leading slashes; it returns a
    value exactly when the answer has a 2xx status and a JSON body, that
    body; every failure is an [Exception] whose message starts with
    [API request failed (], [Connection error: ] or [Unexpected error: ]. *)
Theorem make_api_request_outcomes (method endpoint : string) (params : option (list (string * json)))
  (json_data : option json) (tr : trace) :
  let rq := mkRequest method (AIRFLOW_API_URL ++ "/" ++ lstrip_slash endpoint) params json_data in
  snd (api method endpoint params json_data tr) = app tr [rq]
  /\ (forall j, fst (api method endpoint params json_data tr) = Ok j <->
        exists status text, upstream tr rq = Response status text (inl j) /\ (200 <= status < 300)%Z)
  /\ (forall e, fst (api method endpoint params json_data tr) = Err e ->
        ex_kind e = PyException
        /\ (is_prefix "API request failed (" (ex_msg e) || is_prefix "Connection error: " (ex_msg e)
            || is_prefix "Unexpected error: " (ex_msg e)) = true)
  /\ api method ("/" ++ endpoint) params json_data = api method endpoint params json_data.
Proof.
  intros rq. split; [apply api_trace|]. split; [|split; [|reflexivity]].
  - intros j. unfold make_api_request; cbv zeta. fold rq.
    destruct (upstream tr rq) as [m|m|st tx [j'|m]]; simpl.
    + split; [discriminate | intros [? [? [H _]]]; discriminate].
    + split; [discriminate | intros [? [? [H _]]]; discriminate].
    + destruct (Z.leb 200 st && Z.ltb st 300) eqn:Hb; simpl.
      * apply andb_prop in Hb as [H1 H2]. apply Z.leb_le in H1. apply Z.ltb_lt in H2.
        split; [intros H; injection H as ->; eauto | intros [s [t [H _]]]; congruence].
      * split; [discriminate|]. intros [s [t [H Hs]]]. injection H as -> -> ->.
        apply andb_false_iff in Hb as [Hb|Hb]; [apply Z.leb_gt in Hb | apply Z.ltb_ge in Hb]; lia.
    + destruct (Z.leb 200 st && Z.ltb st 300) eqn:Hb; simpl.
      * split; [discriminate | intros [s [t [H _]]]; discriminate].
      * split; [discriminate | intros [s [t [H _]]]; discriminate].
  - intros e. unfold make_api_request; cbv zeta. fold rq.
    destruct (upstream tr rq) as [m|m|st tx parsed];
      [| | destruct (Z.leb 200 st && Z.ltb st 300); [destruct parsed as [j'|m]|]];
      cbn [fst]; intros H; try discriminate; injection H as <-; cbn [ex_kind ex_msg];
      split; try reflexivity;
      rewrite ?is_prefix_app, ?orb_true_r, ?orb_true_l; reflexivity.
Qed.

Lemma body_clear_dag_run arguments :
  body "clear_dag_run" arguments = call_clear_dag_run AIRFLOW_API_URL upstream arguments.
Proof. reflexivity. Qed.

Lemma body_set_dag_state arguments :
  body "set_dag_state" arguments = call_set_dag_state AIRFLOW_API_URL upstream arguments.
Proof. reflexivity. Qed.

Lemma body_get_import_errors arguments :
  body "get_import_errors" arguments = call_get_import_errors AIRFLOW_API_URL upstream arguments.
Proof. reflexivity. Qed.

Lemma body_get_connections arguments :
  body "get_connections" arguments = call_get_connections AIRFLOW_API_URL upstream arguments.
Proof. reflexivity. Qed.

Lemma body_get_connection arguments :
  body "get_connection" arguments = call_get_connection AIRFLOW_API_URL upstream arguments.
Proof. reflexivity. Qed.

Lemma body_get_dag_tasks arguments :
  body "get_dag_tasks" arguments = call_get_dag_tasks AIRFLOW_API_URL upstream arguments.
Proof. reflexivity. Qed.

Lemma body_get_dag_stats arguments :
  body "get_dag_stats" arguments = call_get_dag_stats AIRFLOW_API_URL upstream arguments.
Proof. reflexivity. Qed.

(** [clear_dag_run] posts [{"dry_run": v}] to the run's [clear] endpoint,
    with [v] the argument as given or [False]; on a 2xx answer listing task
    instances that all carry a [task_id] it returns the header chosen by
    the truthiness of [v] followed by one line per task instance. *)
Theorem clear_dag_run_request_and_render (akvs : list (string * json)) (tr : trace)
  (dag_id run_id : json) (status : Z) (text : string) (rkvs : list (string * json)) (tis : list json)
  (Hd : assoc "dag_id" akvs = Some dag_id) (Hr : assoc "dag_run_id" akvs = Some run_id)
  (Hxs : assoc "task_instances" rkvs = Some (JList tis)) (Hwf : Forall (obj_with "task_id") tis)
  (Hst : (200 <= status < 300)%Z) :
  let dry_run := field_or "dry_run" akvs (JBool false) in
  let rq := mkRequest "POST" (AIRFLOW_API_URL ++ "/dags/" ++ py_str dag_id ++ "/dagRuns/" ++ py_str run_id
                              ++ "/clear") None (Some (JObj [("dry_run", dry_run)])) in
  upstream tr rq = Response status text (inl (JObj rkvs)) ->
  invoke "clear_dag_run" (JObj akvs) tr
  = (Ok (text_result ((if py_truthy dry_run then "🔍 Dry run - Tasks that would be cleared:"
                       else "✅ DAG run cleared successfully!") ++ nl ++ nl ++ concat_strs (map clear_line tis))),
     app tr [rq]).
Proof.
  intros dry_run rq Hup.
  unfold call_tool, try_except; rewrite body_clear_dag_run; unfold call_clear_dag_run.
  rewrite (py_index_obj _ _ _ Hd), bind_lift_ok, (py_index_obj _ _ _ Hr), bind_lift_ok, py_get_obj,
    bind_lift_ok; cbv beta zeta.
  unfold bind at 1; erewrite api_ok; [| exact Hup | exact Hst].
  rewrite py_get_obj, Hxs, bind_lift_ok, py_iter_list, bind_lift_ok.
  unfold bind at 1. rewrite (py_for_exact _ _ _ _ clear_line).
  - unfold dry_run, field_or in *. destruct (py_truthy _); reflexivity.
  - intros x Hx acc. rewrite Forall_forall in Hwf. destruct (Hwf x Hx) as [kvs [id [-> Hid]]].
    rewrite (py_index_obj _ _ _ Hid), bind_lift_ok, py_get_obj, bind_lift_ok.
    unfold clear_line, field_or_na. rewrite Hid. reflexivity.
Qed.

(** [set_dag_state] patches the DAG with [{"is_paused": v}], [v] passed on
    unchanged; on a 2xx object answer it reports the DAG as paused exactly
    when [v] is truthy in Python (so the string ["false"] reads "PAUSED"),
    then the answer's description and schedule or ["N/A"]. *)
Theorem set_dag_state_request_and_render (akvs : list (string * json)) (tr : trace)
  (dag_id v : json) (status : Z) (text : string) (rkvs : list (string * json))
  (Hd : assoc "dag_id" akvs = Some dag_id) (Hp : assoc "is_paused" akvs = Some v)
  (Hst : (200 <= status < 300)%Z) :
  let rq := mkRequest "PATCH" (AIRFLOW_API_URL ++ "/dags/" ++ py_str dag_id) None
              (Some (JObj [("is_paused", v)])) in
  upstream tr rq = Response status text (inl (JObj rkvs)) ->
  invoke "set_dag_state" (JObj akvs) tr
  = (Ok (text_result ("✅ DAG '" ++ py_str dag_id ++ "' is now "
                      ++ (if py_truthy v then "⏸️ PAUSED" else "▶️ ACTIVE") ++ nl ++ nl
                      ++ "- **Description**: " ++ py_str (field_or_na "description" rkvs) ++ nl
                      ++ "- **Schedule**: " ++ py_str (field_or_na "schedule_interval" rkvs) ++ nl)),
     app tr [rq]).
Proof.
  intros rq Hup.
  unfold call_tool, try_except; rewrite body_set_dag_state; unfold call_set_dag_state.
  rewrite (py_index_obj _ _ _ Hd), bind_lift_ok, (py_index_obj _ _ _ Hp), bind_lift_ok; cbv beta zeta.
  unfold bind at 1; erewrite api_ok; [| exact Hup | exact Hst].
  rewrite !py_get_obj, !bind_lift_ok. unfold field_or_na.
  destruct (py_truthy v); close_result.
Qed.

(** [get_import_errors] ignores its arguments and sends one [GET] to
    [importErrors]; on a 2xx object answer whose [import_errors] is absent
    or falsy ([null], [[]]) it reports that there are none, and on a
    non-empty list of objects it returns the count header and one block per
    error, with ["Unknown file"] and ["No error details"] for missing
    fields. *)
Theorem get_import_errors_render (arguments : json) (tr : trace) (status : Z) (text : string)
  (rkvs : list (string * json)) (Hst : (200 <= status < 300)%Z) :
  let rq := mkRequest "GET" (AIRFLOW_API_URL ++ "/importErrors") None None in
  let errors := field_or "import_errors" rkvs (JList []) in
  upstream tr rq = Response status text (inl (JObj rkvs)) ->
  (py_truthy errors = false ->
   invoke "get_import_errors" arguments tr = (Ok (text_result "✅ No DAG import errors found!"), app tr [rq]))
  /\ (forall l, errors = JList l -> l <> [] -> Forall (fun e => exists kvs, e = JObj kvs) l ->
      invoke "get_import_errors" arguments tr
      = (Ok (text_result (("⚠️ Found " ++ z_to_dec (Z.of_nat (length l)) ++ " DAG import errors:" ++ nl ++ nl)
                          ++ concat_strs (map import_error_block l))), app tr [rq])).
Proof.
  intros rq errors Hup. unfold errors, field_or.
  split; [intros Hf | intros l Hl Hne Hobj];
    unfold call_tool, try_except; rewrite body_get_import_errors; unfold call_get_import_errors;
    unfold bind at 1; erewrite api_ok; try exact Hup; try exact Hst;
    rewrite py_get_obj, bind_lift_ok.
  - rewrite Hf. reflexivity.
  - rewrite Hl.
    replace (py_truthy (JList l)) with true by (destruct l; [congruence | reflexivity]).
    cbv [negb]. rewrite py_len_list, bind_lift_ok, py_iter_list, bind_lift_ok.
    unfold bind at 1. rewrite (py_for_exact _ _ _ _ import_error_block).
    + reflexivity.
    + intros x Hx acc. rewrite Forall_forall in Hobj. destruct (Hobj x Hx) as [kvs ->].
      rewrite !py_get_obj, !bind_lift_ok. close_step.
Qed.

(** [get_connections] sends one [GET] to [connections] with the [limit]
    argument, 100 by default; on a 2xx answer listing connections that all
    carry a [connection_id] it returns the count header and one block per
    connection, while a listed connection without an id turns the whole
    result into the dispatcher's error text. *)
Theorem get_connections_render (akvs : list (string * json)) (tr : trace) (status : Z) (text : string)
  (rkvs : list (string * json)) (cs : list json)
  (Hst : (200 <= status < 300)%Z) (Hxs : assoc "connections" rkvs = Some (JList cs)) :
  let limit := field_or "limit" akvs (JInt 100) in
  let rq := mkRequest "GET" (AIRFLOW_API_URL ++ "/connections") (Some [("limit", limit)]) None in
  upstream tr rq = Response status text (inl (JObj rkvs)) ->
  (Forall (obj_with "connection_id") cs ->
   invoke "get_connections" (JObj akvs) tr
   = (Ok (text_result (("🔌 Airflow Connections (" ++ z_to_dec (Z.of_nat (length cs)) ++ " connections):" ++ nl ++ nl)
                       ++ concat_strs (map connection_block cs))), app tr [rq]))
  /\ (forall ckvs, In (JObj ckvs) cs -> assoc "connection_id" ckvs = None ->
      exists e, invoke "get_connections" (JObj akvs) tr = (Ok (text_result (error_text "get_connections" e)), app tr [rq])).
Proof.
  intros limit rq Hup.
  split; [intros Hwf | intros ckvs Hin Hnone];
    unfold call_tool, try_except; rewrite body_get_connections; unfold call_get_connections;
    rewrite py_get_obj, bind_lift_ok; cbv beta zeta;
    unfold bind at 1; erewrite api_ok; try exact Hup; try exact Hst;
    rewrite py_get_obj, Hxs, bind_lift_ok, py_len_list, bind_lift_ok, py_iter_list, bind_lift_ok.
  -  unfold bind at 1. rewrite (py_for_exact _ _ _ _ connection_block); [reflexivity|].
    intros x Hx acc. rewrite Forall_forall in Hwf. destruct (Hwf x Hx) as [kvs [id [-> Hid]]].
    rewrite (py_index_obj _ _ _ Hid), bind_lift_ok, !py_get_obj, !bind_lift_ok.
    unfold connection_block, field_or_na. rewrite Hid. close_step.
  - unfold bind at 1.
    match goal with |- context [py_for cs ?acc ?f ?t] =>
      assert (Hf : exists e, py_for cs acc f t = (Err e, t))
        by (apply (py_for_err cs acc f t (JObj ckvs) Hin);
            [intros a y; no_request_tac
            | intros a; cbv beta; rewrite (py_index_missing _ _ Hnone); eexists; reflexivity])
    end.
    destruct Hf as [e He]. rewrite He. exists e. reflexivity.
Qed.

(** [get_connection] sends one [GET] to [connections/<id>] and, on a 2xx
    object answer, lists its type, host, schema, login, port and extra,
    each ["N/A"] when absent. *)
Theorem get_connection_render (akvs : list (string * json)) (tr : trace) (cid : json) (status : Z)
  (text : string) (rkvs : list (string * json))
  (Hc : assoc "connection_id" akvs = Some cid) (Hst : (200 <= status < 300)%Z) :
  let rq := mkRequest "GET" (AIRFLOW_API_URL ++ "/connections/" ++ py_str cid) None None in
  upstream tr rq = Response status text (inl (JObj rkvs)) ->
  invoke "get_connection" (JObj akvs) tr = (Ok (text_result (connection_details cid rkvs)), app tr [rq]).
Proof.
  intros rq Hup.
  unfold call_tool, try_except; rewrite body_get_connection; unfold call_get_connection.
  rewrite (py_index_obj _ _ _ Hc), bind_lift_ok.
  unfold bind at 1; erewrite api_ok; [| exact Hup | exact Hst].
  rewrite !py_get_obj, !bind_lift_ok. unfold connection_details, field_or_na. close_result.
Qed.

(** With a [connection_id], [test_connection] sends one [GET] to
    [connections/<id>] and always returns one of its own two reports, never
    the dispatcher's error text: the "accessible" report with type and host
    on a 2xx object answer, and on any failure of the request the "failed"
    report carrying the request's error message. *)
Theorem test_connection_outcomes (akvs : list (string * json)) (tr : trace) (cid : json)
  (Hc : assoc "connection_id" akvs = Some cid) :
  let rq := mkRequest "GET" (AIRFLOW_API_URL ++ "/connections/" ++ py_str cid) None None in
  snd (invoke "test_connection" (JObj akvs) tr) = app tr [rq]
  /\ (forall status text rkvs, upstream tr rq = Response status text (inl (JObj rkvs)) -> (200 <= status < 300)%Z ->
      fst (invoke "test_connection" (JObj akvs) tr) = Ok (text_result (connection_accessible cid rkvs)))
  /\ (forall e, fst (api "GET" ("connections/" ++ py_str cid) None None tr) = Err e ->
      fst (invoke "test_connection" (JObj akvs) tr) = Ok (text_result (connection_failed cid e)))
  /\ exists s, fst (invoke "test_connection" (JObj akvs) tr) = Ok (text_result s)
      /\ (is_prefix "✅ Connection '" s || is_prefix "❌ Connection test failed for '" s) = true.
Proof.
  intros rq.
  assert (Hinv : invoke "test_connection" (JObj akvs) tr
    = match api "GET" ("connections/" ++ py_str cid) None None tr with
      | (Ok (JObj rkvs), tr1) => (Ok (text_result (connection_accessible cid rkvs)), tr1)
      | (Ok j, tr1) => (Ok (text_result (connection_failed cid (attr_error j "get"))), tr1)
      | (Err e, tr1) => (Ok (text_result (connection_failed cid e)), tr1)
      end).
  { unfold call_tool, try_except at 1; rewrite (body_test_connection AIRFLOW_API_URL AIRFLOW_BASE_URL upstream).
    unfold call_test_connection. rewrite (py_index_obj _ _ _ Hc), bind_lift_ok.
    unfold try_except, bind at 1.
    destruct (api "GET" ("connections/" ++ py_str cid) None None tr) as [[j|e] tr1];
      [destruct j; try rewrite !py_get_obj, !bind_lift_ok | ];
      cbv beta iota delta [lift raise bind ret py_get]; close_pair. }
  split; [|split; [|split]].
  - rewrite Hinv. generalize (api_trace AIRFLOW_API_URL upstream "GET" ("connections/" ++ py_str cid) None None tr).
    destruct (api "GET" ("connections/" ++ py_str cid) None None tr) as [[j|e] tr1]; [destruct j|];
      cbn [snd]; intros H; exact H.
  - intros status text rkvs Hup Hst. rewrite Hinv.
    rewrite (api_ok AIRFLOW_API_URL upstream "GET" ("connections/" ++ py_str cid) None None tr status text
               (JObj rkvs) Hup Hst). reflexivity.
  - intros e He. rewrite Hinv.
    destruct (api "GET" ("connections/" ++ py_str cid) None None tr) as [[j|e'] tr1]; cbn [fst] in He;
      [discriminate | injection He as ->; reflexivity].
  - rewrite Hinv.
    destruct (api "GET" ("connections/" ++ py_str cid) None None tr) as [[j|e] tr1]; [destruct j|];
      eexists; (split; [reflexivity|]); reflexivity.
Qed.

(** [get_dag_tasks] sends one [GET] to [dags/<id>/tasks]; on a 2xx answer
    whose tasks all carry a [task_id] and list only string downstream ids
    (or none) it returns the count header and one block per task with its
    downstream ids joined by [", "]; a task whose downstream list holds a
    non-string turns the whole result into the dispatcher's error text. *)
Theorem get_dag_tasks_render (akvs : list (string * json)) (tr : trace) (dag_id : json) (status : Z)
  (text : string) (rkvs : list (string * json)) (ts : list json)
  (Hd : assoc "dag_id" akvs = Some dag_id) (Hst : (200 <= status < 300)%Z)
  (Hxs : assoc "tasks" rkvs = Some (JList ts)) :
  let rq := mkRequest "GET" (AIRFLOW_API_URL ++ "/dags/" ++ py_str dag_id ++ "/tasks") None None in
  upstream tr rq = Response status text (inl (JObj rkvs)) ->
  (Forall well_formed_task ts ->
   invoke "get_dag_tasks" (JObj akvs) tr
   = (Ok (text_result (("Tasks in DAG '" ++ py_str dag_id ++ "' (" ++ z_to_dec (Z.of_nat (length ts)) ++ " tasks):"
                        ++ nl ++ nl) ++ concat_strs (map task_block ts))), app tr [rq]))
  /\ (forall kvs l x, In (JObj kvs) ts -> assoc "downstream_task_ids" kvs = Some (JList l) -> In x l ->
      (forall s, x <> JStr s) ->
      exists e, invoke "get_dag_tasks" (JObj akvs) tr = (Ok (text_result (error_text "get_dag_tasks" e)), app tr [rq])).
Proof.
  intros rq Hup.
  split; [intros Hwf | intros kvs l x Hin Hdn Hx Hns];
    unfold call_tool, try_except; rewrite body_get_dag_tasks; unfold call_get_dag_tasks;
    rewrite (py_index_obj _ _ _ Hd), bind_lift_ok;
    unfold bind at 1; erewrite api_ok; try exact Hup; try exact Hst;
    rewrite py_get_obj, Hxs, bind_lift_ok, py_len_list, bind_lift_ok, py_iter_list, bind_lift_ok.
  - unfold bind at 1. rewrite (py_for_exact _ _ _ _ task_block); [reflexivity|].
    intros y Hy acc. rewrite Forall_forall in Hwf. destruct (Hwf y Hy) as [tkvs [id [-> [Hid Hdn]]]].
    rewrite (py_index_obj _ _ _ Hid), bind_lift_ok, !py_get_obj, !bind_lift_ok.
    unfold task_block, task_downstream, field_or_na. rewrite Hid.
    destruct Hdn as [Hdn | [l [Hdn Hl]]]; rewrite Hdn; unfold py_join; cbn [py_iter];
      [| rewrite (join_strs_strs 0 l Hl)]; cbv beta iota fix delta [bind lift ret join_strs]; close_step.
  - unfold bind at 1.
    match goal with |- context [py_for ts ?acc ?f ?t] =>
      assert (Hf : exists e, py_for ts acc f t = (Err e, t))
        by (apply (py_for_err ts acc f t (JObj kvs) Hin);
            [intros a y; unfold py_join; no_request_tac
            | intros a; cbv beta; destruct (join_strs_err 0 l x Hx Hns) as [e He];
              destruct (assoc "task_id" kvs) as [id|] eqn:Hid;
              [rewrite (py_index_obj _ _ _ Hid), bind_lift_ok, !py_get_obj, !bind_lift_ok, Hdn;
               unfold py_join; cbn [py_iter]; rewrite He; eexists; reflexivity
              | rewrite (py_index_missing _ _ Hid); eexists; reflexivity]])
    end.
    destruct Hf as [e He]. rewrite He. exists e. reflexivity.
Qed.

(** [get_dag_stats] ignores its arguments and sends one [GET] to
    [dagStats]; on a 2xx answer whose entries all carry a [dag_id] and
    state counts with [state] and [count] it returns the header and, per
    DAG, its id followed by one line per state, a DAG without [stats]
    getting an empty block. *)
Theorem get_dag_stats_render (arguments : json) (tr : trace) (status : Z) (text : string)
  (rkvs : list (string * json)) (ds : list json)
  (Hst : (200 <= status < 300)%Z) (Hxs : assoc "dags" rkvs = Some (JList ds))
  (Hwf : Forall well_formed_dag_stat ds) :
  let rq := mkRequest "GET" (AIRFLOW_API_URL ++ "/dagStats") None None in
  upstream tr rq = Response status text (inl (JObj rkvs)) ->
  invoke "get_dag_stats" arguments tr
  = (Ok (text_result (("📊 DAG Statistics:" ++ nl ++ nl) ++ concat_strs (map stat_block ds))), app tr [rq]).
Proof.
  intros rq Hup.
  unfold call_tool, try_except; rewrite body_get_dag_stats; unfold call_get_dag_stats.
  unfold bind at 1; erewrite api_ok; [| exact Hup | exact Hst].
  rewrite py_get_obj, Hxs, bind_lift_ok, py_iter_list, bind_lift_ok.
  unfold bind at 1. rewrite (py_for_exact _ _ _ _ stat_block); [reflexivity|].
  intros y Hy acc. rewrite Forall_forall in Hwf. destruct (Hwf y Hy) as [kvs [id [-> [Hid [Hs Hents]]]]].
  rewrite (py_index_obj _ _ _ Hid), bind_lift_ok, py_get_obj, bind_lift_ok.
  assert (Hse : match assoc "stats" kvs with Some x => x | None => JList [] end = JList (stat_entries kvs))
    by (unfold stat_entries; destruct Hs as [H|[l H]]; rewrite H; reflexivity).
  rewrite Hse, py_iter_list, bind_lift_ok.
  unfold bind at 1. rewrite (py_for_exact _ _ _ _ stat_line).
  - unfold stat_block, field_or_na. rewrite Hid. cbv beta iota. close_step.
  - intros st Hst' acc'. rewrite Forall_forall in Hents. destruct (Hents st Hst') as [skvs [s0 [c [-> [Hs0 Hc]]]]].
    rewrite (py_index_obj _ _ _ Hs0), bind_lift_ok, (py_index_obj _ _ _ Hc), bind_lift_ok.
    unfold stat_line, field_or_na. rewrite Hs0, Hc. close_step.
Qed.

(** When an arguments object lacks a key that a tool's schema requires, the
    invocation sends no request and returns the dispatcher's error text for
    the [KeyError] of the first such key in schema order. *)
Theorem missing_required_argument (name : string) (akvs : list (string * json)) (tr : trace) (k : string) :
  first_missing (tool_required name) akvs = Some k ->
  invoke name (JObj akvs) tr = (Ok (text_result (error_text name (mkExc KeyError (repr_str k)))), tr).
Proof.
  intros H. unfold call_tool, try_except, call_tool_body.
  split_tool_chain name;
    [ .. | unfold tool_required in H; cbn [find list_tools tool_name] in H;
           repeat match type of H with context [String.eqb ?a name] =>
             destruct (String.eqb_spec a name); [congruence|] end;
           discriminate ];
    cbn in H;
    repeat match type of H with context [assoc ?key akvs] =>
      let E := fresh "E" in destruct (assoc key akvs) eqn:E end;
    try discriminate; injection H as <-;
    unfold call_get_dags, call_get_dag_tasks, call_trigger_dag_run, call_clear_dag_run,
      call_set_dag_state, call_get_dag_runs, call_get_task_instances, call_get_dag_stats,
      call_get_task_logs, call_get_import_errors,
      call_get_connections, call_get_connection, call_test_connection, call_check_health;
    cbv beta iota delta [py_index]; rewrite ?E, ?E0, ?E1; reflexivity.
Qed.



End Extras.

(** ** Fields read with a default and fields indexed directly *)



Section FieldAccess.

Variable AIRFLOW_API_URL AIRFLOW_BASE_URL : string.
Variable upstream : trace -> request -> http_outcome.
Variable tr : trace.
Variable status : Z.
Variable text : string.
Variable rkvs : list (string * json).
Hypothesis Hup : forall rq, upstream tr rq = Response status text (inl (JObj rkvs)).
Hypothesis Hst : (200 <= status < 300)%Z.

Local Abbreviation invoke := (call_tool AIRFLOW_API_URL AIRFLOW_BASE_URL upstream).


















End FieldAccess.

(** ** Witnesses of the properties above *)

(** A registered name: [get_dags] under an upstream that answers 404. *)
Lemma registered_tool_never_unknown_witness :
  raises_only not_value_error
    (call_tool_body "http://localhost:8080/api/v2" "http://localhost:8080" stub_404 "get_dags" (JObj [])).
Proof.
  apply (registered_tool_never_unknown "http://localhost:8080/api/v2" "http://localhost:8080" stub_404
           "get_dags" (JObj [])).
  simpl; left; reflexivity.
Defined.

(** A dry run over two task instances, one without a try number. *)
Lemma clear_dag_run_request_and_render_witness :
  call_tool "http://localhost:8080/api/v2" "http://localhost:8080"
    (fun _ _ => Response 200 "" (inl (JObj [("task_instances",
                   JList [JObj [("task_id", JStr "t1"); ("try_number", JInt 2)]; JObj [("task_id", JStr "t2")]])])))
    "clear_dag_run" (JObj [("dag_id", JStr "d"); ("dag_run_id", JStr "r"); ("dry_run", JBool true)]) []
  = (Ok (text_result ("🔍 Dry run - Tasks that would be cleared:" ++ nl ++ nl
                      ++ "- t1 (Try: 2)" ++ nl ++ "- t2 (Try: N/A)" ++ nl)),
     [mkRequest "POST" "http://localhost:8080/api/v2/dags/d/dagRuns/r/clear" None
        (Some (JObj [("dry_run", JBool true)]))]).
Proof.
  rewrite (clear_dag_run_request_and_render "http://localhost:8080/api/v2" "http://localhost:8080"
             (fun _ _ => Response 200 "" (inl (JObj [("task_instances",
                JList [JObj [("task_id", JStr "t1"); ("try_number", JInt 2)]; JObj [("task_id", JStr "t2")]])])))
             [("dag_id", JStr "d"); ("dag_run_id", JStr "r"); ("dry_run", JBool true)] [] (JStr "d") (JStr "r")
             200%Z "" [("task_instances",
                JList [JObj [("task_id", JStr "t1"); ("try_number", JInt 2)]; JObj [("task_id", JStr "t2")]])]
             [JObj [("task_id", JStr "t1"); ("try_number", JInt 2)]; JObj [("task_id", JStr "t2")]]
             eq_refl eq_refl eq_refl
             ltac:(repeat constructor; eexists _, _; split; reflexivity) ltac:(lia) eq_refl).
  reflexivity.
Defined.

(** The string ["false"] is truthy: the DAG is reported as paused. *)
Lemma set_dag_state_request_and_render_witness :
  call_tool "http://localhost:8080/api/v2" "http://localhost:8080"
    (fun _ _ => Response 200 "" (inl (JObj [("description", JStr "x")])))
    "set_dag_state" (JObj [("dag_id", JStr "d"); ("is_paused", JStr "false")]) []
  = (Ok (text_result ("✅ DAG 'd' is now ⏸️ PAUSED" ++ nl ++ nl ++ "- **Description**: x" ++ nl
                      ++ "- **Schedule**: N/A" ++ nl)),
     [mkRequest "PATCH" "http://localhost:8080/api/v2/dags/d" None (Some (JObj [("is_paused", JStr "false")]))]).
Proof.
  rewrite (set_dag_state_request_and_render "http://localhost:8080/api/v2" "http://localhost:8080"
             (fun _ _ => Response 200 "" (inl (JObj [("description", JStr "x")])))
             [("dag_id", JStr "d"); ("is_paused", JStr "false")] [] (JStr "d") (JStr "false") 200%Z ""
             [("description", JStr "x")] eq_refl eq_refl ltac:(lia) eq_refl).
  reflexivity.
Defined.

(** One import error without a stack trace. *)
Lemma get_import_errors_render_witness :
  call_tool "http://localhost:8080/api/v2" "http://localhost:8080"
    (fun _ _ => Response 200 "" (inl (JObj [("import_errors", JList [JObj [("filename", JStr "a.py")]])])))
    "get_import_errors" (JObj []) []
  = (Ok (text_result ("⚠️ Found 1 DAG import errors:" ++ nl ++ nl ++ "**a.py**:" ++ nl ++ "```" ++ nl
                      ++ "No error details" ++ nl ++ "```" ++ nl ++ nl)),
     [mkRequest "GET" "http://localhost:8080/api/v2/importErrors" None None]).
Proof.
  destruct (get_import_errors_render "http://localhost:8080/api/v2" "http://localhost:8080"
              (fun _ _ => Response 200 "" (inl (JObj [("import_errors", JList [JObj [("filename", JStr "a.py")]])])))
              (JObj []) [] 200%Z "" [("import_errors", JList [JObj [("filename", JStr "a.py")]])]
              ltac:(lia) eq_refl) as [_ H].
  rewrite (H [JObj [("filename", JStr "a.py")]] eq_refl ltac:(discriminate)
             ltac:(repeat constructor; eexists; reflexivity)).
  reflexivity.
Defined.

(** The default limit of 100 and a connection with a host only. *)
Lemma get_connections_render_witness :
  call_tool "http://localhost:8080/api/v2" "http://localhost:8080"
    (fun _ _ => Response 200 "" (inl (JObj [("connections",
                   JList [JObj [("connection_id", JStr "c1"); ("host", JStr "h")]])])))
    "get_connections" (JObj []) []
  = (Ok (text_result ("🔌 Airflow Connections (1 connections):" ++ nl ++ nl ++ "- **c1**" ++ nl
                      ++ "  - Type: N/A" ++ nl ++ "  - Host: h" ++ nl ++ "  - Schema: N/A" ++ nl ++ nl)),
     [mkRequest "GET" "http://localhost:8080/api/v2/connections" (Some [("limit", JInt 100)]) None]).
Proof.
  destruct (get_connections_render "http://localhost:8080/api/v2" "http://localhost:8080"
              (fun _ _ => Response 200 "" (inl (JObj [("connections",
                 JList [JObj [("connection_id", JStr "c1"); ("host", JStr "h")]])])))
              [] [] 200%Z "" [("connections", JList [JObj [("connection_id", JStr "c1"); ("host", JStr "h")]])]
              [JObj [("connection_id", JStr "c1"); ("host", JStr "h")]]
              ltac:(lia) eq_refl eq_refl) as [H _].
  rewrite H; [reflexivity|]. repeat constructor; eexists _, _; split; reflexivity.
Defined.

(** A connection answered with its type only. *)
Lemma get_connection_render_witness :
  fst (call_tool "http://localhost:8080/api/v2" "http://localhost:8080"
         (fun _ _ => Response 200 "" (inl (JObj [("conn_type", JStr "postgres")])))
         "get_connection" (JObj [("connection_id", JStr "c1")]) [])
  = Ok (text_result ("🔌 Connection Details: **c1**" ++ nl ++ nl ++ "- **Type**: postgres" ++ nl
                     ++ "- **Host**: N/A" ++ nl ++ "- **Schema**: N/A" ++ nl ++ "- **Login**: N/A" ++ nl
                     ++ "- **Port**: N/A" ++ nl ++ "- **Extra**: N/A" ++ nl)).
Proof.
  rewrite (get_connection_render "http://localhost:8080/api/v2" "http://localhost:8080"
             (fun _ _ => Response 200 "" (inl (JObj [("conn_type", JStr "postgres")])))
             [("connection_id", JStr "c1")] [] (JStr "c1") 200%Z "" [("conn_type", JStr "postgres")]
             eq_refl ltac:(lia) eq_refl).
  reflexivity.
Defined.

(** A 404 answer gives the "failed" report, not the dispatcher's text. *)
Lemma test_connection_outcomes_witness :
  fst (call_tool "http://localhost:8080/api/v2" "http://localhost:8080" stub_404
         "test_connection" (JObj [("connection_id", JStr "c1")]) [])
  = Ok (text_result ("❌ Connection test failed for 'c1':" ++ nl ++ nl
                     ++ "Error: API request failed (404): DAG not found" ++ nl)).
Proof.
  destruct (test_connection_outcomes "http://localhost:8080/api/v2" "http://localhost:8080" stub_404
              [("connection_id", JStr "c1")] [] (JStr "c1") eq_refl) as [_ [_ [H _]]].
  rewrite (H not_found_exc); reflexivity.
Defined.

(** Two tasks, the first with two downstream ids, the second with none. *)
Lemma get_dag_tasks_render_witness :
  fst (call_tool "http://localhost:8080/api/v2" "http://localhost:8080"
         (fun _ _ => Response 200 "" (inl (JObj [("tasks",
            JList [JObj [("task_id", JStr "a"); ("downstream_task_ids", JList [JStr "b"; JStr "c"])];
                   JObj [("task_id", JStr "b")]])])))
         "get_dag_tasks" (JObj [("dag_id", JStr "d")]) [])
  = Ok (text_result ("Tasks in DAG 'd' (2 tasks):" ++ nl ++ nl
                     ++ "- **a**" ++ nl ++ "  - Type: N/A" ++ nl ++ "  - Downstream: b, c" ++ nl ++ nl
                     ++ "- **b**" ++ nl ++ "  - Type: N/A" ++ nl ++ "  - Downstream: " ++ nl ++ nl)).
Proof.
  destruct (get_dag_tasks_render "http://localhost:8080/api/v2" "http://localhost:8080"
              (fun _ _ => Response 200 "" (inl (JObj [("tasks",
                 JList [JObj [("task_id", JStr "a"); ("downstream_task_ids", JList [JStr "b"; JStr "c"])];
                        JObj [("task_id", JStr "b")]])])))
              [("dag_id", JStr "d")] [] (JStr "d") 200%Z ""
              [("tasks", JList [JObj [("task_id", JStr "a"); ("downstream_task_ids", JList [JStr "b"; JStr "c"])];
                                JObj [("task_id", JStr "b")]])]
              [JObj [("task_id", JStr "a"); ("downstream_task_ids", JList [JStr "b"; JStr "c"])];
               JObj [("task_id", JStr "b")]]
              eq_refl ltac:(lia) eq_refl eq_refl) as [H _].
  rewrite H; [reflexivity|].
  repeat constructor.
  - eexists _, _; split; [reflexivity|]; split; [reflexivity|].
    right; eexists; split; [reflexivity|]. repeat constructor; eexists; reflexivity.
  - eexists _, _; split; [reflexivity|]; split; [reflexivity|]. left; reflexivity.
Defined.

(** Two DAGs, one with two state counts and one without [stats]. *)
Lemma get_dag_stats_render_witness :
  fst (call_tool "http://localhost:8080/api/v2" "http://localhost:8080"
         (fun _ _ => Response 200 "" (inl (JObj [("dags",
            JList [JObj [("dag_id", JStr "d1");
                         ("stats", JList [JObj [("state", JStr "success"); ("count", JInt 3)];
                                          JObj [("state", JStr "failed"); ("count", JInt 0)]])];
                   JObj [("dag_id", JStr "d2")]])])))
         "get_dag_stats" (JObj []) [])
  = Ok (text_result ("📊 DAG Statistics:" ++ nl ++ nl ++ "**d1**:" ++ nl ++ "  - success: 3" ++ nl
                     ++ "  - failed: 0" ++ nl ++ nl ++ "**d2**:" ++ nl ++ nl)).
Proof.
  rewrite (get_dag_stats_render "http://localhost:8080/api/v2" "http://localhost:8080"
             (fun _ _ => Response 200 "" (inl (JObj [("dags",
                JList [JObj [("dag_id", JStr "d1");
                             ("stats", JList [JObj [("state", JStr "success"); ("count", JInt 3)];
                                              JObj [("state", JStr "failed"); ("count", JInt 0)]])];
                       JObj [("dag_id", JStr "d2")]])])))
             (JObj []) [] 200%Z ""
             [("dags", JList [JObj [("dag_id", JStr "d1");
                                    ("stats", JList [JObj [("state", JStr "success"); ("count", JInt 3)];
                                                     JObj [("state", JStr "failed"); ("count", JInt 0)]])];
                              JObj [("dag_id", JStr "d2")]])]
             [JObj [("dag_id", JStr "d1");
                    ("stats", JList [JObj [("state", JStr "success"); ("count", JInt 3)];
                                     JObj [("state", JStr "failed"); ("count", JInt 0)]])];
              JObj [("dag_id", JStr "d2")]]
             ltac:(lia) eq_refl
             ltac:(constructor; [|constructor; [|constructor]];
                   (eexists _, _; split; [reflexivity|]; split; [reflexivity|]; split;
                    [first [left; reflexivity | right; eexists; reflexivity]
                    | simpl; repeat (apply Forall_cons; [eexists _, _, _; split; [reflexivity|]; split; reflexivity|]);
                      apply Forall_nil]))
             eq_refl).
  reflexivity.
Defined.

(** [get_task_logs] with [task_id] but without [dag_run_id]: the first
    missing required key in schema order is [dag_run_id]. *)
Lemma missing_required_argument_witness :
  call_tool "http://localhost:8080/api/v2" "http://localhost:8080" stub_404
    "get_task_logs" (JObj [("dag_id", JStr "d"); ("task_id", JStr "t")]) []
  = (Ok (text_result ("❌ Error executing 'get_task_logs':" ++ nl ++ nl ++ "'dag_run_id'")), []).
Proof.
  rewrite (missing_required_argument "http://localhost:8080/api/v2" "http://localhost:8080" stub_404
             "get_task_logs" [("dag_id", JStr "d"); ("task_id", JStr "t")] [] "dag_run_id" eq_refl).
  reflexivity.
Defined.


